(** * weathersensor: the composite weather sensor of package [models]

    A shallow embedding of [models] (the Go package registered by
    [main.go]) and the properties of its configuration validator, its
    weather client and its reading composer.

    Go values of dynamic type ([interface{}]) are an inductive type, Go
    maps are [gmap]s, [float64] is the kernel's binary64, Go's multiple
    return values are tuples with [option error] in the error position,
    and the outside world (HTTP, the JSON decoder, the clock, the injected
    sensor, the host's configuration and dependency lookup) is a record of
    oracles next to a trace of the calls that were made. *)

From Stdlib Require Import ZArith PrimFloat Ascii.
From Stdlib.Strings Require Import Byte.
From stdpp Require Import gmap strings list fin_maps pretty.

#[local] Set Warnings "-register-all".
#[local] Open Scope Z_scope.

(** ** Go data *)

(** A value of type [interface{}] ([any]): what [encoding/json] stores when it
    decodes into [map[string]interface{}] (nil, bool, float64, string, slice,
    map), and [VInt] for a Go [int] boxed in an interface (an HTTP status
    passed to a formatter, a reading of a sensor that reports integers).
    A nil map boxed in an interface reads like the empty map and is
    identified with it. *)
Inductive value :=
| VNil
| VBool (b : bool)
| VFloat64 (f : float)
| VString (s : string)
| VInt (n : Z)
| VSlice (l : list value)
| VMap (m : gmap string value).

(** A variable of type [map[string]interface{}]: [None] is the nil map. *)
Abbreviation gomap := (option (gmap string value)).

(** [m[k]] on a non-nil map: the zero value (nil) when the key is absent. *)
Definition index (m : gmap string value) (k : string) : value :=
  default VNil (m !! k).

(** [v, ok := m[k]] on a map variable; a nil map has no key. *)
Definition index_ok (m : gomap) (k : string) : option value :=
  m ≫= (.!! k).

(** [m[k]] on a map variable. *)
Definition gindex (m : gomap) (k : string) : value :=
  default VNil (index_ok m k).

(** Error values. [LibError] is an error built outside this package (by
    [net/http], [io], [encoding/json], the host or the injected sensor);
    the three others are the constructors the package calls, kept with
    their format and arguments. *)
Inductive error :=
| LibError (msg : string)
| fmt_Errorf (format : string) (args : list value)
| errors_Errorf (format : string) (args : list value)
| errors_Wrapf (cause : error) (format : string) (args : list value).

Definition dquote : string := String "034"%char EmptyString.
Definition newline : string := String "010"%char EmptyString.

(** A Go raw string literal [`expected "attr" attribute for weather module`]. *)
Definition expected_attribute (attr : string) : string :=
  "expected " +:+ dquote +:+ attr +:+ dquote +:+ " attribute for weather module".

(** ** Configuration *)

(** [Zipcode] is a Go [int]; the package only compares it with zero and
    prints it, so it is kept as an integer without its width. *)
Record Config := {
  TemperatureSensor : string;
  Zipcode : Z;
  APIKey : string
}.

(** [(cfg *Config) Validate(path)]: required dependencies, optional
    dependencies, error. A nil slice is the empty list. *)
Definition Validate (cfg : Config) (path : string)
  : list string * list string * option error :=
  if decide (TemperatureSensor cfg = "") then
    ([], [], Some (fmt_Errorf (expected_attribute "temp-sensor") []))
  else if decide (APIKey cfg = "") then
    ([], [], Some (fmt_Errorf (expected_attribute "apikey") []))
  else if decide (Zipcode cfg = 0) then
    ([], [], Some (fmt_Errorf (expected_attribute "zipcode") []))
  else
    ([TemperatureSensor cfg], [], None).

(** The error slot of a Go result. *)
Definition err_of {A B} (r : A * B * option error) : option error := r.2.

(** ** Effects: panics and the trace of outbound calls *)

(** A run-time panic: a failed type assertion [v.(T)] or a method call on a
    nil interface. *)
Inductive panic :=
| PanicTypeAssertion (v : value) (want : string)
| PanicNilDereference.

(** [*http.Request], [*http.Response] (its [Body] is what [io.ReadAll]
    yields when it drains the stream) and [http.Client] ([Timeout] is a
    [time.Duration], in nanoseconds). *)
Record Request := {
  Method : string;
  URL : string;
  Header : list (string * string)
}.

Record Response := {
  StatusCode : Z;
  Body : list byte + error
}.

Record Client := { Timeout : Z }.

(** Handles of objects owned by the host: a [sensor.Sensor], a
    [context.Context], a [resource.Config] and a [resource.Dependencies]. *)
Inductive Sensor := SensorHandle (id : string).
Inductive Context := ContextHandle (id : nat).
Inductive RawConfig := RawConfigHandle (id : nat).
Inductive Dependencies := DependenciesHandle (id : nat).

(** What the package does to the outside, in program order. *)
Inductive event :=
| EvLogErrorf (format : string) (args : list (value + error))
| EvClientDo (client : Client) (req : Request)
| EvBodyClose (resp : Response)
| EvSensorReadings (sn : Sensor) (ctx : Context) (extra : gomap).

Inductive outcome (A : Type) :=
| Done (a : A)
| Panicked (p : panic).
Arguments Done {A} a.
Arguments Panicked {A} p.

(** A computation: how it ended and the events it emitted. *)
Definition M (A : Type) : Type := outcome A * list event.

#[export] Instance M_ret : MRet M := λ A (a : A), (Done a, []).

#[export] Instance M_bind : MBind M := λ A B (k : A → M B) (c : M A),
  match c with
  | (Done a, t1) => let '(o, t2) := k a in (o, t1 ++ t2)
  | (Panicked p, t1) => (Panicked p, t1)
  end.

Definition emit (e : event) : M unit := (Done (), [e]).

Definition raise {A} (p : panic) : M A := (Panicked p, []).

(** [defer cleanup] at the top of a block: the event is emitted when the
    block is left, however it is left. *)
Definition defer {A} (cleanup : event) (body : M A) : M A :=
  let '(o, t) := body in (o, t ++ [cleanup]).

(** [v.(map[string]any)] and [v.(float64)], the panicking forms. *)
Definition assert_map (v : value) : M (gmap string value) :=
  match v with
  | VMap m => mret m
  | _ => raise (PanicTypeAssertion v "map[string]interface {}")
  end.

Definition assert_float64 (v : value) : M float :=
  match v with
  | VFloat64 f => mret f
  | _ => raise (PanicTypeAssertion v "float64")
  end.

(** ** The outside world *)

(** The libraries and collaborators the package calls, as functions of
    their arguments: [http.NewRequest]'s verdict on a method and URL,
    the client's [Do], [json.Unmarshal] into a nil
    [map[string]interface{}] (the map it leaves, or its error),
    [time.Now().Format], the injected sensor's [Readings],
    [resource.NativeConfig[*Config]] and [sensor.FromDependencies]. *)
Record Env := {
  http_NewRequest_error : string → string → option error;
  client_Do : Client → Request → Response + error;
  json_Unmarshal : list byte → gomap + error;
  time_Now_Format : string → string;
  sensor_Readings : Sensor → Context → gomap → gomap * option error;
  resource_NativeConfig : RawConfig → Config + error;
  sensor_FromDependencies : Dependencies → string → option Sensor * option error
}.

Definition http_NewRequest (env : Env) (method url : string) : Request + error :=
  match http_NewRequest_error env method url with
  | Some err => inr err
  | None => inl {| Method := method; URL := url; Header := [] |}
  end.

Definition Header_Add (req : Request) (key val : string) : Request :=
  {| Method := Method req; URL := URL req; Header := Header req ++ [(key, val)] |}.

Definition io_ReadAll (body : list byte + error) : list byte + error := body.

Definition http_StatusOK : Z := 200.
Definition time_Second : Z := 1000000000.

(** [s.logger.Errorf(format, args...)]. *)
Definition logger_Errorf (format : string) (args : list (value + error)) : M unit :=
  emit (EvLogErrorf format args).

(** ** The adapter *)

Definition currentWeatherURL : string := "https://api.weatherapi.com/v1/current.json".
Definition astronomyURL : string := "https://api.weatherapi.com/v1/astronomy.json".

(** The struct's [logger] is the trace, and its cancel context and function
    are not used by the methods below. *)
Record weathersensorWeathersensor := {
  name : string;
  cfg : option Config;
  temperatureSensor : option Sensor;
  apiKey : string;
  zipcode : Z
}.

Definition set_temperatureSensor (ts : option Sensor) (s : weathersensorWeathersensor) :=
  {| name := name s; cfg := cfg s; temperatureSensor := ts;
     apiKey := apiKey s; zipcode := zipcode s |}.

Definition set_apiKey (k : string) (s : weathersensorWeathersensor) :=
  {| name := name s; cfg := cfg s; temperatureSensor := temperatureSensor s;
     apiKey := k; zipcode := zipcode s |}.

Definition set_zipcode (z : Z) (s : weathersensorWeathersensor) :=
  {| name := name s; cfg := cfg s; temperatureSensor := temperatureSensor s;
     apiKey := apiKey s; zipcode := z |}.

(** [(s) Reconfigure(ctx, deps, conf)]: the adapter after the call and the
    error. The pair returned by [sensor.FromDependencies] is assigned to
    [s.temperatureSensor] and [err] before [err] is looked at. *)
Definition Reconfigure (env : Env) (s : weathersensorWeathersensor)
    (ctx : Context) (deps : Dependencies) (conf : RawConfig)
  : weathersensorWeathersensor * option error :=
  match resource_NativeConfig env conf with
  | inr err => (s, Some err)
  | inl sensorConfig =>
    let '(ts, err) := sensor_FromDependencies env deps (TemperatureSensor sensorConfig) in
    let s := set_temperatureSensor ts s in
    match err with
    | Some err =>
      (s, Some (errors_Wrapf err
                  "unable to get temperature sensor %v for weather sensor"
                  [VString (TemperatureSensor sensorConfig)]))
    | None =>
      let s := set_apiKey (APIKey sensorConfig) s in
      let s := set_zipcode (Zipcode sensorConfig) s in
      (s, None)
    end
  end.

(** ** Weather client *)

Definition getWeatherBodyOrCode (env : Env) (s : weathersensorWeathersensor)
    (url : string) : M (gomap * option error) :=
  let client := {| Timeout := 10 * time_Second |} in
  match http_NewRequest env "GET" url with
  | inr err =>
    logger_Errorf ("Error creating request: %v" +:+ newline) [inr err];;
    mret (None, Some err)
  | inl req =>
    let req := Header_Add req "Accept" "application/json" in
    emit (EvClientDo client req);;
    match client_Do env client req with
    | inr err =>
      logger_Errorf ("Error making request: %v" +:+ newline) [inr err];;
      mret (None, Some err)
    | inl resp =>
      defer (EvBodyClose resp)
        match io_ReadAll (Body resp) with
        | inr err =>
          logger_Errorf ("Error reading response body: %v" +:+ newline) [inr err];;
          mret (None, Some err)
        | inl body =>
          match json_Unmarshal env body with
          | inr err =>
            logger_Errorf ("Error unmarshaling to map: %v" +:+ newline) [inr err];;
            mret (None, Some err)
          | inl responseJSON =>
            if decide (StatusCode resp ≠ http_StatusOK) then
              logger_Errorf ("Unexpected status code: %d" +:+ newline)
                            [inl (VInt (StatusCode resp))];;
              match index_ok responseJSON "code" with
              | None =>
                mret (None, Some (errors_Errorf
                  "request failed with code %d, and no code in response body"
                  [VInt (StatusCode resp)]))
              | Some code =>
                match index_ok responseJSON "message" with
                | None =>
                  mret (None, Some (errors_Errorf
                    "request failed with code %d, and no message in response body"
                    [VInt (StatusCode resp)]))
                | Some message =>
                  mret (responseJSON, Some (errors_Errorf
                    "error fetching weather info, code: %d, message: %s"
                    [code; message]))
                end
              end
            else mret (responseJSON, None)
          end
        end
    end
  end.

(** [fmt.Sprintf("%s?q=%d&dt=%s&key=%s", ...)]: [%d] prints the zipcode in
    decimal. *)
Definition astronomy_url (env : Env) (s : weathersensorWeathersensor) : string :=
  astronomyURL +:+ "?q=" +:+ pretty (zipcode s)
    +:+ "&dt=" +:+ time_Now_Format env "2006-01-02" +:+ "&key=" +:+ apiKey s.

Definition getCurrentAstronomy (env : Env) (s : weathersensorWeathersensor)
  : M (gomap * option error) :=
  getWeatherBodyOrCode env s (astronomy_url env s).

(** [fmt.Sprintf("%s?q=%d&key=%s", currentWeatherURL, s.zipcode, s.apiKey)],
    the URL that both [getCurrentWeatherURL] and [getCurrentWeather] build. *)
Definition getCurrentWeatherURL (s : weathersensorWeathersensor) : string :=
  currentWeatherURL +:+ "?q=" +:+ pretty (zipcode s) +:+ "&key=" +:+ apiKey s.

Definition getCurrentWeather (env : Env) (s : weathersensorWeathersensor)
  : M (gomap * option error) :=
  getWeatherBodyOrCode env s (getCurrentWeatherURL s).

(** ** Reading composer *)

(** [s.temperatureSensor.Readings(ctx, extra)]: a method call on the nil
    interface panics. *)
Definition temperatureSensor_Readings (env : Env) (s : weathersensorWeathersensor)
    (ctx : Context) (extra : gomap) : M (gomap * option error) :=
  match temperatureSensor s with
  | None => raise PanicNilDereference
  | Some ts =>
    emit (EvSensorReadings ts ctx extra);;
    mret (sensor_Readings env ts ctx extra)
  end.

Definition Readings (env : Env) (s : weathersensorWeathersensor)
    (ctx : Context) (extra : gomap) : M (gomap * option error) :=
  let output : gmap string value := ∅ in
  '(response, err) ← getCurrentWeather env s;
  match err with
  | Some err => mret (None, Some err)
  | None =>
  '(astronomyResponse, err) ← getCurrentAstronomy env s;
  match err with
  | Some err => mret (None, Some err)
  | None =>
  currentWeather ← assert_map (gindex response "current");
  let output := <["outside_f" := index currentWeather "temp_f"]> output in
  condition ← assert_map (index currentWeather "condition");
  let output := <["condition" := index condition "text"]> output in
  condition ← assert_map (index currentWeather "condition");
  let output := <["code" := index condition "code"]> output in
  cloud ← assert_float64 (index currentWeather "cloud");
  let output := <["cloud_cover_pct" := VFloat64 cloud]> output in
  let output := <["precipitation_inches" := index currentWeather "precip_in"]> output in
  astronomy ← assert_map (gindex astronomyResponse "astronomy");
  astronomy ← assert_map (index astronomy "astro");
  let output := <["is_day" := index astronomy "is_sun_up"]> output in
  '(readings, err) ← temperatureSensor_Readings env s ctx None;
  match err with
  | Some err =>
    mret (None, Some (errors_Wrapf err "error getting reading from temp sensor" []))
  | None =>
  insideTempC ← assert_float64 (gindex readings "degrees_celsius");
  let output := <["inside_f" := VFloat64 (insideTempC * 9 / 5 + 32)%float]> output in
  mret (Some output, None)
  end end end.

(** ** Sample worlds

    Concrete collaborators used to run the package: a weather API serving
    one body and status per endpoint, a JSON decoder that knows the sample
    bodies, and a temperature sensor with a fixed answer. *)

Definition quoted (s : string) : string := dquote +:+ s +:+ dquote.

(** [{"current":{"temp_f":71.5,"condition":{"text":"Sunny","code":1000},
     "cloud":25,"precip_in":0}}] *)
Definition current_text : string :=
  "{" +:+ quoted "current" +:+ ":{" +:+ quoted "temp_f" +:+ ":71.5,"
    +:+ quoted "condition" +:+ ":{" +:+ quoted "text" +:+ ":" +:+ quoted "Sunny"
    +:+ "," +:+ quoted "code" +:+ ":1000}," +:+ quoted "cloud" +:+ ":25,"
    +:+ quoted "precip_in" +:+ ":0}}".

Definition current_json : gmap string value :=
  {[ "current" := VMap (list_to_map
       [ ("temp_f", VFloat64 71.5%float);
         ("condition", VMap (list_to_map
            [ ("text", VString "Sunny"); ("code", VFloat64 1000%float) ]));
         ("cloud", VFloat64 25%float);
         ("precip_in", VFloat64 0%float) ]) ]}.

(** [{"astronomy":{"astro":{"is_sun_up":1}}}] *)
Definition astronomy_text : string :=
  "{" +:+ quoted "astronomy" +:+ ":{" +:+ quoted "astro" +:+ ":{"
    +:+ quoted "is_sun_up" +:+ ":1}}}".

Definition astronomy_json : gmap string value :=
  {[ "astronomy" := VMap {[ "astro" := VMap {[ "is_sun_up" := VFloat64 1%float ]} ]} ]}.

(** [{"code":1006,"message":"No matching location found."}] *)
Definition no_location_text : string :=
  "{" +:+ quoted "code" +:+ ":1006," +:+ quoted "message" +:+ ":"
    +:+ quoted "No matching location found." +:+ "}".

Definition no_location_json : gmap string value :=
  list_to_map [ ("code", VFloat64 1006%float);
                ("message", VString "No matching location found.") ].

(** [{"message":"Internal error"}] and [{"code":9999}] *)
Definition only_message_text : string :=
  "{" +:+ quoted "message" +:+ ":" +:+ quoted "Internal error" +:+ "}".

Definition only_message_json : gmap string value :=
  {[ "message" := VString "Internal error" ]}.

Definition only_code_text : string := "{" +:+ quoted "code" +:+ ":9999}".

Definition only_code_json : gmap string value := {[ "code" := VFloat64 9999%float ]}.

(** A current-conditions body without [temp_f], [precip_in] and the two
    [condition] leaves, and an astronomy body without [is_sun_up]:
    [{"current":{"condition":{},"cloud":25}}] and
    [{"astronomy":{"astro":{}}}]. *)
Definition bare_current_text : string :=
  "{" +:+ quoted "current" +:+ ":{" +:+ quoted "condition" +:+ ":{},"
    +:+ quoted "cloud" +:+ ":25}}".

Definition bare_current_json : gmap string value :=
  {[ "current" := VMap (list_to_map
       [ ("condition", VMap ∅); ("cloud", VFloat64 25%float) ]) ]}.

Definition bare_astronomy_text : string :=
  "{" +:+ quoted "astronomy" +:+ ":{" +:+ quoted "astro" +:+ ":{}}}".

Definition bare_astronomy_json : gmap string value :=
  {[ "astronomy" := VMap {[ "astro" := VMap ∅ ]} ]}.

(** The decoder on the sample bodies; anything else is a syntax error. *)
Definition sample_Unmarshal (body : list byte) : gomap + error :=
  let text := String.string_of_list_byte body in
  if String.eqb text current_text then inl (Some current_json)
  else if String.eqb text astronomy_text then inl (Some astronomy_json)
  else if String.eqb text no_location_text then inl (Some no_location_json)
  else if String.eqb text only_message_text then inl (Some only_message_json)
  else if String.eqb text only_code_text then inl (Some only_code_json)
  else if String.eqb text bare_current_text then inl (Some bare_current_json)
  else if String.eqb text bare_astronomy_text then inl (Some bare_astronomy_json)
  else inr (LibError "invalid character looking for beginning of value").

(** The weather API: one response per endpoint. *)
Definition sample_Do (current astronomy : Response + error)
    (client : Client) (req : Request) : Response + error :=
  if String.prefix currentWeatherURL (URL req) then current
  else if String.prefix astronomyURL (URL req) then astronomy
  else inr (LibError "no such host").

Definition respond (status : Z) (text : string) : Response + error :=
  inl {| StatusCode := status; Body := inl (String.list_byte_of_string text) |}.

Definition sample_config : Config :=
  {| TemperatureSensor := "thermo"; Zipcode := 10001; APIKey := "k3y" |}.

Definition world (current astronomy : Response + error)
    (reading : gomap * option error) : Env :=
  {| http_NewRequest_error := λ _ _, None;
     client_Do := sample_Do current astronomy;
     json_Unmarshal := sample_Unmarshal;
     time_Now_Format := λ _, "2024-05-17";
     sensor_Readings := λ _ _ _, reading;
     resource_NativeConfig := λ conf,
       match conf with
       | RawConfigHandle 0 => inl sample_config
       | RawConfigHandle _ => inr (LibError "incorrect config type")
       end;
     sensor_FromDependencies := λ _ nm,
       if String.eqb nm "thermo" then (Some (SensorHandle "thermo"), None)
       else (None, Some (LibError "resource not found")) |}.

Definition celsius (c : float) : gomap * option error :=
  (Some {[ "degrees_celsius" := VFloat64 c ]}, None).

(** Everything answers as documented; the room is at 100 degrees Celsius. *)
Definition fair_world : Env :=
  world (respond 200 current_text) (respond 200 astronomy_text) (celsius 100).

Definition adapter : weathersensorWeathersensor :=
  {| name := "weather"; cfg := Some sample_config;
     temperatureSensor := Some (SensorHandle "thermo");
     apiKey := "k3y"; zipcode := 10001 |}.

Definition background : Context := ContextHandle 0.

(** ** Observations on a trace *)

(** The client the package builds for every request, and the request it
    sends for a URL that [http.NewRequest] accepts. *)
Definition weather_client : Client := {| Timeout := 10 * time_Second |}.

Definition weather_request (url : string) : Request :=
  {| Method := "GET"; URL := url; Header := [("Accept", "application/json")] |}.

(** The outbound calls of a trace: HTTP requests and sensor readings. *)
Inductive call :=
| CallHttp (method url : string)
| CallSensor (sn : Sensor) (ctx : Context) (extra : gomap).

Definition call_of (e : event) : option call :=
  match e with
  | EvClientDo _ req => Some (CallHttp (Method req) (URL req))
  | EvSensorReadings sn ctx extra => Some (CallSensor sn ctx extra)
  | EvLogErrorf _ _ | EvBodyClose _ => None
  end.

Definition calls (t : list event) : list call := omap call_of t.

(** The mapping [Readings] assembles, in the order of its assignments. *)
Definition composite (currentWeather condition astro : gmap string value)
    (cloud insideTempC : float) : gmap string value :=
  <["inside_f" := VFloat64 (insideTempC * 9 / 5 + 32)%float]>
  (<["is_day" := index astro "is_sun_up"]>
  (<["precipitation_inches" := index currentWeather "precip_in"]>
  (<["cloud_cover_pct" := VFloat64 cloud]>
  (<["code" := index condition "code"]>
  (<["condition" := index condition "text"]>
  (<["outside_f" := index currentWeather "temp_f"]> ∅)))))).

(** The extraction steps between the two fetches and the sensor call, as
    facts about the two decoded bodies. *)
Definition extracts (response astronomyResponse : gomap)
    (currentWeather condition astro : gmap string value) (cloud : float) : Prop :=
  gindex response "current" = VMap currentWeather
  ∧ index currentWeather "condition" = VMap condition
  ∧ index currentWeather "cloud" = VFloat64 cloud
  ∧ ∃ astronomy, gindex astronomyResponse "astronomy" = VMap astronomy
                 ∧ index astronomy "astro" = VMap astro.

(** The keys of a composite reading. *)
Definition reading_keys : gset string :=
  {[ "outside_f"; "condition"; "code"; "cloud_cover_pct";
     "precipitation_inches"; "is_day"; "inside_f" ]}.

(** ** The documented shapes *)

(** A decoded body as a value, and the value at a path of keys below it:
    nil wherever a key is absent or the path runs into something that is
    not an object. *)
Definition body_value (m : gomap) : value :=
  match m with
  | Some g => VMap g
  | None => VNil
  end.

Fixpoint descend (v : value) (path : list string) : option value :=
  match path with
  | [] => Some v
  | k :: rest =>
    match v with
    | VMap m => m !! k ≫= λ v', descend v' rest
    | _ => None
    end
  end.

Definition field (m : gomap) (path : list string) : value :=
  default VNil (descend (body_value m) path).

Definition is_object (v : value) : bool :=
  match v with VMap _ => true | _ => false end.

Definition is_float64 (v : value) : bool :=
  match v with VFloat64 _ => true | _ => false end.

Definition is_string (v : value) : bool :=
  match v with VString _ => true | _ => false end.

Definition is_numeric (v : value) : bool :=
  match v with VFloat64 _ | VInt _ => true | _ => false end.

Definition is_present (v : value) : bool :=
  match v with VNil => false | _ => true end.

(** The shapes as the weather API and the sensor contract document them:
    [current.temp_f], [current.condition.code], [current.cloud] and
    [current.precip_in] numbers, [current.condition.text] a string,
    [astronomy.astro.is_sun_up] present, [degrees_celsius] numeric. *)
Definition documented_current (response : gomap) : bool :=
  is_float64 (field response ["current"; "temp_f"])
  && is_string (field response ["current"; "condition"; "text"])
  && is_float64 (field response ["current"; "condition"; "code"])
  && is_float64 (field response ["current"; "cloud"])
  && is_float64 (field response ["current"; "precip_in"]).

Definition documented_astronomy (astronomyResponse : gomap) : bool :=
  is_present (field astronomyResponse ["astronomy"; "astro"; "is_sun_up"]).

Definition documented_reading (readings : gomap) : bool :=
  is_numeric (field readings ["degrees_celsius"]).

(** The specification's sentence on contract violations: whenever both
    fetches succeed (status 200) and a body departs from its documented
    shape, or the sensor's successful reading has no numeric
    [degrees_celsius], the run ends in a panic. *)
Definition shape_mismatch_is_fatal : Prop :=
  ∀ env s ctx extra response astronomyResponse,
    (getCurrentWeather env s).1 = Done (response, None) →
    (getCurrentAstronomy env s).1 = Done (astronomyResponse, None) →
    documented_current response = false
    ∨ documented_astronomy astronomyResponse = false
    ∨ (∃ ts readings,
         temperatureSensor s = Some ts
         ∧ sensor_Readings env ts ctx None = (readings, None)
         ∧ documented_reading readings = false) →
    ∃ p, (Readings env s ctx extra).1 = Panicked p.

(** The part of the shapes that [Readings] asserts on its way to the sensor:
    the objects it descends into and the one number it converts. *)
Definition containers (response astronomyResponse : gomap) : bool :=
  is_object (field response ["current"])
  && is_object (field response ["current"; "condition"])
  && is_float64 (field response ["current"; "cloud"])
  && is_object (field astronomyResponse ["astronomy"])
  && is_object (field astronomyResponse ["astronomy"; "astro"]).

(** Bodies without the leaves, served with status 200. *)
Definition bare_world : Env :=
  world (respond 200 bare_current_text) (respond 200 bare_astronomy_text) (celsius 0).

(** ** Construction *)

(** [newWeathersensorWeathersensor(ctx, deps, rawConf, logger)]: the new
    adapter (nil on failure) and the error. [ResourceName] stands for the
    method [rawConf.ResourceName()]; the fields the struct literal leaves out
    have their zero values until [Reconfigure] fills them. *)
Definition newWeathersensorWeathersensor (env : Env)
    (ResourceName : RawConfig → string)
    (ctx : Context) (deps : Dependencies) (rawConf : RawConfig)
  : option weathersensorWeathersensor * option error :=
  match resource_NativeConfig env rawConf with
  | inr err => (None, Some err)
  | inl conf =>
    let s := {| name := ResourceName rawConf; cfg := Some conf;
                temperatureSensor := None; apiKey := ""; zipcode := 0 |} in
    match Reconfigure env s ctx deps rawConf with
    | (_, Some err) => (None, Some err)
    | (s, None) => (Some s, None)
    end
  end.

(** [(s) Name()]. *)
Definition Name (s : weathersensorWeathersensor) : string := name s.

(** ** More observations on a trace *)

(** The formats logged, the bodies closed, the requests sent and the sensor
    readings asked for, each in program order. *)
Definition logged (t : list event) : list string :=
  omap (λ e, match e with EvLogErrorf format _ => Some format | _ => None end) t.

Definition closed (t : list event) : list Response :=
  omap (λ e, match e with EvBodyClose resp => Some resp | _ => None end) t.

Definition requests (t : list event) : list (Client * Request) :=
  omap (λ e, match e with EvClientDo client req => Some (client, req) | _ => None end) t.

Definition sensor_reads (t : list event) : list (Sensor * Context * gomap) :=
  omap (λ e, match e with
             | EvSensorReadings sn ctx extra => Some (sn, ctx, extra)
             | _ => None
             end) t.

(** ** A host with several configurations *)

(** The fair world, on a host that knows three raw configurations: the
    sample one, one for another place with another key, and one that names a
    sensor the host does not have. *)
Definition elsewhere_config : Config :=
  {| TemperatureSensor := "thermo"; Zipcode := 94103; APIKey := "0th3r" |}.

Definition attic_config : Config :=
  {| TemperatureSensor := "attic"; Zipcode := 10001; APIKey := "k3y" |}.

Definition host_world : Env :=
  {| http_NewRequest_error := http_NewRequest_error fair_world;
     client_Do := client_Do fair_world;
     json_Unmarshal := json_Unmarshal fair_world;
     time_Now_Format := time_Now_Format fair_world;
     sensor_Readings := sensor_Readings fair_world;
     resource_NativeConfig := λ conf,
       match conf with
       | RawConfigHandle 0 => inl sample_config
       | RawConfigHandle 1 => inl elsewhere_config
       | RawConfigHandle 2 => inl attic_config
       | RawConfigHandle _ => inr (LibError "incorrect config type")
       end;
     sensor_FromDependencies := sensor_FromDependencies fair_world |}.

Definition host_ResourceName (conf : RawConfig) : string := "weather".

(** ** Characters of a URL *)

(** The string does not contain the character. *)
Fixpoint free_of (c : ascii) (s : string) : bool :=
  match s with
  | EmptyString => true
  | String x rest => negb (Ascii.eqb x c) && free_of c rest
  end.

(** ** The body [null] *)

(** [encoding/json] accepts the JSON literal [null] for a map: it reports no
    error and leaves the map nil. This is the sample decoder with that
    case. *)
Definition null_Unmarshal (body : list byte) : gomap + error :=
  if String.eqb (String.string_of_list_byte body) "null" then inl None
  else sample_Unmarshal body.

(** A weather API whose current-conditions endpoint answers [null] under the
    given status. *)
Definition null_world (status : Z) : Env :=
  {| http_NewRequest_error := http_NewRequest_error fair_world;
     client_Do := sample_Do (respond status "null") (respond 200 astronomy_text);
     json_Unmarshal := null_Unmarshal;
     time_Now_Format := time_Now_Format fair_world;
     sensor_Readings := sensor_Readings fair_world;
     resource_NativeConfig := resource_NativeConfig fair_world;
     sensor_FromDependencies := sensor_FromDependencies fair_world |}.

(** The decoder made a JSON object of the body: it reported no error and
    left a map that is not nil. *)
Definition parses_as_object (env : Env) (body : list byte) : bool :=
  match json_Unmarshal env body with
  | inl (Some _) => true
  | inl None | inr _ => false
  end.

(** The specification's sentence on decoding: once the body has been read,
    a body that does not parse as a JSON object makes the fetch fail with an
    error and no map, whatever the status; a body that parses under status
    200 is returned with no error. *)
Definition non_object_body_is_decode_error : Prop :=
  ∀ env s url resp body,
    http_NewRequest_error env "GET" url = None →
    client_Do env weather_client (weather_request url) = inl resp →
    Body resp = inl body →
    (parses_as_object env body = false →
       ∃ err, (getWeatherBodyOrCode env s url).1 = Done (None, Some err))
    ∧ (∀ object, json_Unmarshal env body = inl (Some object) →
       StatusCode resp = http_StatusOK →
       (getWeatherBodyOrCode env s url).1 = Done (Some object, None)).

(** ** Reconfiguring again and again *)

(** The adapter after a sequence of calls to [Reconfigure], whatever each
    call returns. *)
Definition reconfigure_all (env : Env) (s : weathersensorWeathersensor)
    (steps : list (Context * Dependencies * RawConfig)) : weathersensorWeathersensor :=
  foldl (λ s step, (Reconfigure env s step.1.1 step.1.2 step.2).1) s steps.

(** * Properties *)

(** ** Configuration validator *)

Example expected_attribute_zipcode :
  expected_attribute "zipcode"
  = String "e" (String "x" (String "p" (String "e" (String "c" (String "t"
      (String "e" (String "d" (String " " (String "034"
      (String "z" (String "i" (String "p" (String "c" (String "o" (String "d"
      (String "e" (String "034" " attribute for weather module"))))))))))))))))).
Proof. reflexivity. Qed.

Example Validate_sample :
  Validate sample_config "components.0" = (["thermo"], [], None).
Proof. reflexivity. Qed.

Example Validate_reports_first_only :
  Validate {| TemperatureSensor := ""; Zipcode := 0; APIKey := "" |} "components.0"
  = ([], [], Some (fmt_Errorf (expected_attribute "temp-sensor") [])).
Proof. reflexivity. Qed.

(** C3. [Validate] fails exactly when the temp-sensor string is empty, the
    apikey string is empty or the zipcode is zero. The three checks run in
    that order and the first one that fails decides the error, which names
    that one attribute only; when all three pass the required dependencies
    are the singleton list of the temp-sensor identifier, with no error. *)
Theorem Validate_first_missing_attribute (cfg : Config) (path : string) :
  (is_Some (err_of (Validate cfg path))
     ↔ TemperatureSensor cfg = "" ∨ APIKey cfg = "" ∨ Zipcode cfg = 0)
  ∧ (TemperatureSensor cfg = "" →
       Validate cfg path
       = ([], [], Some (fmt_Errorf (expected_attribute "temp-sensor") [])))
  ∧ (TemperatureSensor cfg ≠ "" → APIKey cfg = "" →
       Validate cfg path
       = ([], [], Some (fmt_Errorf (expected_attribute "apikey") [])))
  ∧ (TemperatureSensor cfg ≠ "" → APIKey cfg ≠ "" → Zipcode cfg = 0 →
       Validate cfg path
       = ([], [], Some (fmt_Errorf (expected_attribute "zipcode") [])))
  ∧ (TemperatureSensor cfg ≠ "" → APIKey cfg ≠ "" → Zipcode cfg ≠ 0 →
       Validate cfg path = ([TemperatureSensor cfg], [], None)).
Proof.
  unfold Validate, err_of.
  repeat case_decide; simpl; repeat split; intros;
    try congruence; try (by eexists); try tauto;
    match goal with
    | H : is_Some None |- _ => by destruct H
    | _ => idtac
    end.
Qed.

(** ** Weather client *)

Example fair_current_fetch :
  (getCurrentWeather fair_world adapter).1 = Done (Some current_json, None).
Proof. vm_compute. reflexivity. Qed.

Example fair_readings :
  (Readings fair_world adapter background None).1
  = Done (Some (list_to_map
       [ ("outside_f", VFloat64 71.5%float); ("condition", VString "Sunny");
         ("code", VFloat64 1000%float); ("cloud_cover_pct", VFloat64 25%float);
         ("precipitation_inches", VFloat64 0%float); ("is_day", VFloat64 1%float);
         ("inside_f", VFloat64 212%float) ]), None).
Proof. vm_compute. reflexivity. Qed.

Example null_body_status_200 :
  getWeatherBodyOrCode (null_world 200) adapter (getCurrentWeatherURL adapter)
  = (Done (None, None),
     [ EvClientDo weather_client (weather_request (getCurrentWeatherURL adapter));
       EvBodyClose {| StatusCode := 200;
                      Body := inl (String.list_byte_of_string "null") |} ]).
Proof. vm_compute. reflexivity. Qed.

Example null_body_status_500 :
  (getWeatherBodyOrCode (null_world 500) adapter (getCurrentWeatherURL adapter)).1
  = Done (None, Some (errors_Errorf
            "request failed with code %d, and no code in response body" [VInt 500])).
Proof. vm_compute. reflexivity. Qed.

(** C7, as the specification words it, fails: the body [null] served with
    status 200 is not a JSON object, the decoder reports no error for it, and
    the fetch returns a nil map with a nil error. *)
Lemma null_body_is_not_a_decode_error : ¬ non_object_body_is_decode_error.
Proof.
  intros H.
  destruct (H (null_world 200) adapter (getCurrentWeatherURL adapter)
              {| StatusCode := 200; Body := inl (String.list_byte_of_string "null") |}
              (String.list_byte_of_string "null")) as [Hnull _].
  - reflexivity.
  - vm_compute. reflexivity.
  - reflexivity.
  - destruct Hnull as [err Herr]; [vm_compute; reflexivity|].
    vm_compute in Herr. discriminate.
Qed.

(** C7, amended. Once the response has arrived and its body has been read in
    full, a body for which [json.Unmarshal] reports an error makes the fetch
    fail with that error and a nil map, whatever the HTTP status; when it
    reports none and the status is 200, the fetch returns the map the decoder
    left, with no error. That map is nil when the decoder accepted the body
    without making an object of it (the body [null]): the fetch then returns
    a nil map and a nil error under status 200, and under any other status
    the error that says the code is missing. *)
Theorem getWeatherBodyOrCode_decode env s url resp body :
  http_NewRequest_error env "GET" url = None →
  client_Do env weather_client (weather_request url) = inl resp →
  Body resp = inl body →
  (∀ err, json_Unmarshal env body = inr err →
     (getWeatherBodyOrCode env s url).1 = Done (None, Some err))
  ∧ (∀ responseJSON, json_Unmarshal env body = inl responseJSON →
     StatusCode resp = http_StatusOK →
     (getWeatherBodyOrCode env s url).1 = Done (responseJSON, None))
  ∧ (json_Unmarshal env body = inl None →
     StatusCode resp = http_StatusOK →
     (getWeatherBodyOrCode env s url).1 = Done (None, None))
  ∧ (json_Unmarshal env body = inl None →
     StatusCode resp ≠ http_StatusOK →
     (getWeatherBodyOrCode env s url).1
     = Done (None, Some (errors_Errorf
         "request failed with code %d, and no code in response body"
         [VInt (StatusCode resp)]))).
Proof.
  intros Hreq Hdo Hbody. unfold getWeatherBodyOrCode, http_NewRequest.
  rewrite Hreq. change (Header_Add _ _ _) with (weather_request url).
  fold weather_client. rewrite Hdo. unfold io_ReadAll. rewrite Hbody.
  split; [|split; [|split]].
  - intros err ->. reflexivity.
  - intros responseJSON -> Hst. rewrite Hst. reflexivity.
  - intros -> Hst. rewrite Hst. reflexivity.
  - intros -> Hst. rewrite decide_True by done. reflexivity.
Qed.

Lemma getWeatherBodyOrCode_decode_witness :
  (getWeatherBodyOrCode
     (world (respond 503 "<html>Service Unavailable</html>")
            (respond 200 astronomy_text) (celsius 0))
     adapter (getCurrentWeatherURL adapter)).1
  = Done (None, Some (LibError "invalid character looking for beginning of value")).
Proof.
  refine (proj1 (getWeatherBodyOrCode_decode
    (world (respond 503 "<html>Service Unavailable</html>")
           (respond 200 astronomy_text) (celsius 0))
    adapter (getCurrentWeatherURL adapter)
    {| StatusCode := 503;
       Body := inl (String.list_byte_of_string "<html>Service Unavailable</html>") |}
    (String.list_byte_of_string "<html>Service Unavailable</html>")
    _ _ _) _ _).
  - reflexivity.
  - vm_compute. reflexivity.
  - reflexivity.
  - vm_compute. reflexivity.
Defined.

(** C5. When the status is not 200 and the body decoded: without a [code]
    key the fetch fails with an error that carries the HTTP status and says
    that the code is missing, and returns a nil map; with a [code] but without
    a [message] key it fails likewise, saying that the message is missing;
    with both keys it fails with the error that carries the body's code and
    message, and returns the decoded (non-nil) body next to the error. *)
Theorem getWeatherBodyOrCode_status_not_ok env s url resp body responseJSON :
  http_NewRequest_error env "GET" url = None →
  client_Do env weather_client (weather_request url) = inl resp →
  Body resp = inl body →
  json_Unmarshal env body = inl responseJSON →
  StatusCode resp ≠ http_StatusOK →
  (index_ok responseJSON "code" = None →
     (getWeatherBodyOrCode env s url).1
     = Done (None, Some (errors_Errorf
         "request failed with code %d, and no code in response body"
         [VInt (StatusCode resp)])))
  ∧ (is_Some (index_ok responseJSON "code") →
     index_ok responseJSON "message" = None →
     (getWeatherBodyOrCode env s url).1
     = Done (None, Some (errors_Errorf
         "request failed with code %d, and no message in response body"
         [VInt (StatusCode resp)])))
  ∧ (∀ code message,
     index_ok responseJSON "code" = Some code →
     index_ok responseJSON "message" = Some message →
     is_Some responseJSON
     ∧ (getWeatherBodyOrCode env s url).1
       = Done (responseJSON, Some (errors_Errorf
           "error fetching weather info, code: %d, message: %s"
           [code; message]))).
Proof.
  intros Hreq Hdo Hbody Hjson Hst. unfold getWeatherBodyOrCode, http_NewRequest.
  rewrite Hreq. change (Header_Add _ _ _) with (weather_request url).
  fold weather_client. rewrite Hdo. unfold io_ReadAll. rewrite Hbody, Hjson.
  rewrite decide_True by done.
  split; [|split].
  - intros ->. reflexivity.
  - intros [code ->] ->. reflexivity.
  - intros code message Hc Hm. rewrite Hc, Hm. split; [|reflexivity].
    destruct responseJSON; [by eexists | discriminate].
Qed.

Lemma getWeatherBodyOrCode_status_not_ok_witness :
  (getWeatherBodyOrCode
     (world (respond 500 no_location_text) (respond 200 astronomy_text) (celsius 0))
     adapter (getCurrentWeatherURL adapter)).1
  = Done (Some no_location_json,
          Some (errors_Errorf "error fetching weather info, code: %d, message: %s"
                  [VFloat64 1006%float; VString "No matching location found."])).
Proof.
  refine (proj2 (proj2 (proj2 (getWeatherBodyOrCode_status_not_ok
    (world (respond 500 no_location_text) (respond 200 astronomy_text) (celsius 0))
    adapter (getCurrentWeatherURL adapter)
    {| StatusCode := 500; Body := inl (String.list_byte_of_string no_location_text) |}
    (String.list_byte_of_string no_location_text) (Some no_location_json)
    _ _ _ _ _)) _ _ _ _)).
  - reflexivity.
  - vm_compute. reflexivity.
  - reflexivity.
  - vm_compute. reflexivity.
  - vm_compute. discriminate.
  - vm_compute. reflexivity.
  - vm_compute. reflexivity.
Defined.

Example status_without_code :
  (getWeatherBodyOrCode
     (world (respond 502 only_message_text) (respond 200 astronomy_text) (celsius 0))
     adapter (getCurrentWeatherURL adapter)).1
  = Done (None, Some (errors_Errorf
            "request failed with code %d, and no code in response body" [VInt 502])).
Proof. vm_compute. reflexivity. Qed.

Example status_without_message :
  (getWeatherBodyOrCode
     (world (respond 403 only_code_text) (respond 200 astronomy_text) (celsius 0))
     adapter (getCurrentWeatherURL adapter)).1
  = Done (None, Some (errors_Errorf
            "request failed with code %d, and no message in response body" [VInt 403])).
Proof. vm_compute. reflexivity. Qed.

Example transport_failure :
  getWeatherBodyOrCode
    (world (inr (LibError "connection refused")) (respond 200 astronomy_text) (celsius 0))
    adapter (getCurrentWeatherURL adapter)
  = (Done (None, Some (LibError "connection refused")),
     [ EvClientDo weather_client (weather_request (getCurrentWeatherURL adapter));
       EvLogErrorf ("Error making request: %v" +:+ newline)
                   [inr (LibError "connection refused")] ]).
Proof. vm_compute. reflexivity. Qed.

(** ** Reading composer *)

(** Unfolding the monad and splitting on every branch of a run. *)
Ltac unfold_M :=
  unfold defer, logger_Errorf, assert_map, assert_float64 in *;
  unfold emit, raise, mret, mbind, M_ret, M_bind in *.

Ltac run := repeat (case_match; simpl in *; simplify_eq).

Lemma getWeatherBodyOrCode_total env s url :
  ∃ r, (getWeatherBodyOrCode env s url).1 = Done r.
Proof.
  unfold getWeatherBodyOrCode. unfold_M. run; eauto.
Qed.

(** A fetch sends at most one request, to the URL it was given, and a fetch
    that does not send it fails. *)
Lemma getWeatherBodyOrCode_calls env s url :
  calls (getWeatherBodyOrCode env s url).2
  = match http_NewRequest_error env "GET" url with
    | None => [CallHttp "GET" url]
    | Some _ => []
    end.
Proof.
  unfold getWeatherBodyOrCode, http_NewRequest. unfold_M.
  destruct (http_NewRequest_error env "GET" url); [reflexivity|].
  run; unfold calls; rewrite ?omap_app; reflexivity.
Qed.

Lemma getWeatherBodyOrCode_calls_prefix env s url :
  calls (getWeatherBodyOrCode env s url).2 `prefix_of` [CallHttp "GET" url].
Proof.
  rewrite getWeatherBodyOrCode_calls. case_match; [apply prefix_nil | done].
Qed.

Lemma getWeatherBodyOrCode_success_calls env s url r :
  (getWeatherBodyOrCode env s url).1 = Done (r, None) →
  calls (getWeatherBodyOrCode env s url).2 = [CallHttp "GET" url].
Proof.
  intros H. rewrite getWeatherBodyOrCode_calls.
  revert H. unfold getWeatherBodyOrCode, http_NewRequest. unfold_M.
  destruct (http_NewRequest_error env "GET" url); [discriminate | done].
Qed.

(** What a run of [Readings] that returns no error went through. *)
Lemma Readings_returns_inv env s ctx extra out :
  (Readings env s ctx extra).1 = Done (out, None) →
  ∃ response astronomyResponse currentWeather condition cloud astronomy astro
    ts readings insideTempC,
    (getCurrentWeather env s).1 = Done (response, None)
    ∧ (getCurrentAstronomy env s).1 = Done (astronomyResponse, None)
    ∧ gindex response "current" = VMap currentWeather
    ∧ index currentWeather "condition" = VMap condition
    ∧ index currentWeather "cloud" = VFloat64 cloud
    ∧ gindex astronomyResponse "astronomy" = VMap astronomy
    ∧ index astronomy "astro" = VMap astro
    ∧ temperatureSensor s = Some ts
    ∧ sensor_Readings env ts ctx None = (readings, None)
    ∧ gindex readings "degrees_celsius" = VFloat64 insideTempC
    ∧ out = Some (composite currentWeather condition astro cloud insideTempC).
Proof.
  unfold Readings, temperatureSensor_Readings. unfold_M.
  intros H. run. by eexists _, _, _, _, _, _, _, _, _, _.
Qed.

(** Both fetches succeed, the bodies pass the extraction and the sensor
    answers with a [float64] under [degrees_celsius]: the run returns the
    composite mapping. *)
Lemma Readings_returns env s ctx extra response astronomyResponse
    currentWeather condition astro cloud ts readings insideTempC :
  (getCurrentWeather env s).1 = Done (response, None) →
  (getCurrentAstronomy env s).1 = Done (astronomyResponse, None) →
  extracts response astronomyResponse currentWeather condition astro cloud →
  temperatureSensor s = Some ts →
  sensor_Readings env ts ctx None = (readings, None) →
  gindex readings "degrees_celsius" = VFloat64 insideTempC →
  (Readings env s ctx extra).1
  = Done (Some (composite currentWeather condition astro cloud insideTempC), None).
Proof.
  intros Hw Ha (Hc & Hcond & Hcloud & astronomy & Hastronomy & Hastro) Hts Hrd Hdeg.
  unfold Readings, temperatureSensor_Readings. unfold_M.
  destruct (getCurrentWeather env s) as [o1 t1].
  destruct (getCurrentAstronomy env s) as [o2 t2].
  simpl in Hw, Ha. subst o1 o2.
  rewrite Hc, Hcond, Hcloud, Hastronomy, Hastro, Hts, Hrd. simpl.
  rewrite Hdeg. reflexivity.
Qed.

(** The two endpoints are told apart by their URLs. *)
Lemma current_astronomy_urls_differ env s :
  getCurrentWeatherURL s ≠ astronomy_url env s.
Proof.
  unfold getCurrentWeatherURL, astronomy_url, currentWeatherURL, astronomyURL.
  intros H. simplify_eq.
Qed.

(** The outbound calls of any run are an initial part of: the
    current-conditions request, the astronomy request, one reading of the
    configured sensor with the caller's context and a nil [extra]. *)
Lemma Readings_calls_prefix env s ctx extra :
  calls (Readings env s ctx extra).2
  `prefix_of`
  [CallHttp "GET" (getCurrentWeatherURL s); CallHttp "GET" (astronomy_url env s)]
  ++ match temperatureSensor s with
     | Some ts => [CallSensor ts ctx None]
     | None => []
     end.
Proof.
  pose proof (getWeatherBodyOrCode_calls_prefix env s (getCurrentWeatherURL s)) as P1.
  pose proof (getWeatherBodyOrCode_success_calls env s (getCurrentWeatherURL s)) as S1.
  pose proof (getWeatherBodyOrCode_calls_prefix env s (astronomy_url env s)) as P2.
  pose proof (getWeatherBodyOrCode_success_calls env s (astronomy_url env s)) as S2.
  fold (getCurrentWeather env s) in P1, S1.
  fold (getCurrentAstronomy env s) in P2, S2.
  unfold Readings, temperatureSensor_Readings. unfold_M.
  destruct (getCurrentWeather env s) as [[[response [err|]]|p] t1]; simpl in *;
    rewrite ?app_nil_r.
  - by apply (prefix_app_r _ [_]).
  - specialize (S1 _ eq_refl).
    destruct (getCurrentAstronomy env s) as [[[astronomyResponse [err|]]|p] t2];
      simpl in *.
    + unfold calls in *. rewrite omap_app, S1, app_nil_r. simpl.
      apply prefix_cons. by apply (prefix_app_r _ [_]).
    + specialize (S2 _ eq_refl).
      run; unfold calls in *; rewrite ?omap_app, ?S1, ?S2; simpl;
        repeat apply prefix_cons; first [apply prefix_nil | reflexivity].
    + unfold calls in *. rewrite omap_app, S1. simpl.
      apply prefix_cons. by apply (prefix_app_r _ [_]).
  - by apply (prefix_app_r _ [_]).
Qed.



Lemma getWeatherBodyOrCode_no_sensor_call env s url sn c x :
  CallSensor sn c x ∉ calls (getWeatherBodyOrCode env s url).2.
Proof.
  rewrite getWeatherBodyOrCode_calls.
  case_match; [apply not_elem_of_nil | by intros ?%list_elem_of_singleton].
Qed.

(** A run that reads the sensor has fetched both bodies, has extracted the
    weather fields from them, and reads the configured sensor with the
    caller's context and a nil [extra]. *)
Lemma Readings_sensor_called_inv env s ctx extra sn c x :
  CallSensor sn c x ∈ calls (Readings env s ctx extra).2 →
  ∃ response astronomyResponse currentWeather condition astro cloud,
    (getCurrentWeather env s).1 = Done (response, None)
    ∧ (getCurrentAstronomy env s).1 = Done (astronomyResponse, None)
    ∧ extracts response astronomyResponse currentWeather condition astro cloud
    ∧ temperatureSensor s = Some sn ∧ c = ctx ∧ x = None.
Proof.
  pose proof (getWeatherBodyOrCode_no_sensor_call env s (getCurrentWeatherURL s) sn c x) as N1.
  pose proof (getWeatherBodyOrCode_no_sensor_call env s (astronomy_url env s) sn c x) as N2.
  fold (getCurrentWeather env s) in N1. fold (getCurrentAstronomy env s) in N2.
  unfold Readings, temperatureSensor_Readings, extracts. unfold_M.
  destruct (getCurrentWeather env s) as [[[response [err|]]|p] t1]; simpl in *;
    rewrite ?app_nil_r; try done.
  destruct (getCurrentAstronomy env s) as [[[astronomyResponse [err|]]|p] t2];
    simpl in *; unfold calls in *; rewrite ?omap_app, ?app_nil_r, ?elem_of_app;
    try tauto.
  run; rewrite ?omap_app, ?elem_of_app; simpl;
    rewrite ?elem_of_nil, ?list_elem_of_singleton; intros H;
    destruct_or?; try contradiction; simplify_eq;
    eexists _, _, _, _, _, _; repeat split; eauto.
Qed.

Lemma composite_dom currentWeather condition astro cloud insideTempC :
  dom (composite currentWeather condition astro cloud insideTempC) = reading_keys.
Proof.
  unfold composite, reading_keys. rewrite !dom_insert_L, dom_empty_L.
  apply set_eq. intros k. rewrite !elem_of_union, !elem_of_singleton, elem_of_empty.
  tauto.
Qed.

(** C1. A run of [Readings] that returns without an error returns a non-nil
    mapping whose keys are exactly [outside_f], [condition], [code],
    [cloud_cover_pct], [precipitation_inches], [is_day] and [inside_f]. *)
Theorem Readings_exactly_seven_keys env s ctx extra out :
  (Readings env s ctx extra).1 = Done (out, None) →
  ∃ m : gmap string value,
    out = Some m
    ∧ dom m = reading_keys
    ∧ ∀ k, is_Some (m !! k)
           ↔ k ∈ ["outside_f"; "condition"; "code"; "cloud_cover_pct";
                  "precipitation_inches"; "is_day"; "inside_f"].
Proof.
  intros H. apply Readings_returns_inv in H
    as (r & a & cw & cond & cloud & astronomy & astro & ts & rd & c & H).
  destruct H as (_ & _ & _ & _ & _ & _ & _ & _ & _ & _ & ->).
  eexists. split; [reflexivity|]. split; [apply composite_dom|].
  intros k. rewrite <- elem_of_dom, composite_dom. unfold reading_keys.
  rewrite !elem_of_union, !elem_of_singleton, !elem_of_cons, elem_of_nil.
  tauto.
Qed.

Lemma Readings_exactly_seven_keys_witness :
  ∃ m : gmap string value,
    (Readings fair_world adapter background None).1 = Done (Some m, None)
    ∧ dom m = reading_keys.
Proof.
  destruct (Readings_exactly_seven_keys fair_world adapter background None _ eq_refl)
    as (m & Hout & Hdom & _).
  exists m. split; [by rewrite <- Hout | exact Hdom].
Defined.

(** C2. In a run of [Readings] that returns without an error the sensor was
    read, its [degrees_celsius] is a [float64] [c], and [inside_f] is
    [c * 9 / 5 + 32] in [float64] arithmetic, evaluated left to right; so a
    reading of 0 gives 32 and a reading of 100 gives 212. *)
Theorem Readings_inside_f env s ctx extra out :
  (Readings env s ctx extra).1 = Done (out, None) →
  ∃ ts readings insideTempC (m : gmap string value),
    temperatureSensor s = Some ts
    ∧ sensor_Readings env ts ctx None = (readings, None)
    ∧ gindex readings "degrees_celsius" = VFloat64 insideTempC
    ∧ out = Some m
    ∧ m !! "inside_f" = Some (VFloat64 (insideTempC * 9 / 5 + 32)%float)
    ∧ (insideTempC = 0%float → m !! "inside_f" = Some (VFloat64 32%float))
    ∧ (insideTempC = 100%float → m !! "inside_f" = Some (VFloat64 212%float)).
Proof.
  intros H. apply Readings_returns_inv in H
    as (r & a & cw & cond & cloud & astronomy & astro & ts & rd & c & H).
  destruct H as (_ & _ & _ & _ & _ & _ & _ & Hts & Hrd & Hdeg & ->).
  exists ts, rd, c. eexists. repeat split; try done.
  - intros ->. reflexivity.
  - intros ->. reflexivity.
Qed.

Lemma Readings_inside_f_witness :
  ∃ m : gmap string value,
    (Readings (world (respond 200 current_text) (respond 200 astronomy_text)
                     (celsius 0)) adapter background None).1
    = Done (Some m, None)
    ∧ m !! "inside_f" = Some (VFloat64 32%float).
Proof.
  destruct (Readings_inside_f
              (world (respond 200 current_text) (respond 200 astronomy_text) (celsius 0))
              adapter background None _ eq_refl)
    as (ts & rd & c & m & _ & Hrd & Hdeg & Hout & _ & Hzero & _).
  exists m. split; [by rewrite <- Hout|].
  apply Hzero. simpl in Hrd. injection Hrd as <-.
  vm_compute in Hdeg. by injection Hdeg as <-.
Defined.

(** The sensor is reached and answers with an error: the run returns that
    error wrapped, and a nil mapping. *)
Lemma Readings_sensor_error env s ctx extra response astronomyResponse
    currentWeather condition astro cloud ts readings err :
  (getCurrentWeather env s).1 = Done (response, None) →
  (getCurrentAstronomy env s).1 = Done (astronomyResponse, None) →
  extracts response astronomyResponse currentWeather condition astro cloud →
  temperatureSensor s = Some ts →
  sensor_Readings env ts ctx None = (readings, Some err) →
  (Readings env s ctx extra).1
  = Done (None, Some (errors_Wrapf err "error getting reading from temp sensor" [])).
Proof.
  intros Hw Ha (Hc & Hcond & Hcloud & astronomy & Hastronomy & Hastro) Hts Hrd.
  unfold Readings, temperatureSensor_Readings. unfold_M.
  destruct (getCurrentWeather env s) as [o1 t1].
  destruct (getCurrentAstronomy env s) as [o2 t2].
  simpl in Hw, Ha. subst o1 o2.
  rewrite Hc, Hcond, Hcloud, Hastronomy, Hastro, Hts, Hrd. reflexivity.
Qed.

(** C8. When both weather fetches succeed and the run reads the sensor,
    whose reading returns an error, [Readings] returns a nil mapping and
    that error wrapped with the context
    [error getting reading from temp sensor]. *)
Theorem Readings_wraps_sensor_error env s ctx extra response astronomyResponse
    ts readings err :
  (getCurrentWeather env s).1 = Done (response, None) →
  (getCurrentAstronomy env s).1 = Done (astronomyResponse, None) →
  CallSensor ts ctx None ∈ calls (Readings env s ctx extra).2 →
  sensor_Readings env ts ctx None = (readings, Some err) →
  (Readings env s ctx extra).1
  = Done (None, Some (errors_Wrapf err "error getting reading from temp sensor" [])).
Proof.
  intros _ _ Hcall Hrd.
  apply Readings_sensor_called_inv in Hcall
    as (r & a & cw & cond & astro & cloud & Hw & Ha & Hex & Hts & _ & _).
  by eapply Readings_sensor_error.
Qed.

Lemma Readings_wraps_sensor_error_witness :
  (Readings (world (respond 200 current_text) (respond 200 astronomy_text)
                   (None, Some (LibError "sensor offline")))
            adapter background None).1
  = Done (None, Some (errors_Wrapf (LibError "sensor offline")
                        "error getting reading from temp sensor" [])).
Proof.
  apply (Readings_wraps_sensor_error
           (world (respond 200 current_text) (respond 200 astronomy_text)
                  (None, Some (LibError "sensor offline")))
           adapter background None (Some current_json) (Some astronomy_json)
           (SensorHandle "thermo") None (LibError "sensor offline")).
  - vm_compute. reflexivity.
  - vm_compute. reflexivity.
  - vm_compute. apply list_elem_of_In. simpl. tauto.
  - reflexivity.
Defined.

(** C10. [Readings] does not depend on its [extra] argument: two runs that
    differ only in it are equal, result and trace; and every call of the
    temperature sensor in a run passes a nil [extra]. *)
Theorem Readings_ignores_extra env s ctx (extra1 extra2 : gomap) :
  Readings env s ctx extra1 = Readings env s ctx extra2
  ∧ ∀ sn c x, EvSensorReadings sn c x ∈ (Readings env s ctx extra1).2 → x = None.
Proof.
  split; [reflexivity|].
  intros sn c x Hin.
  assert (CallSensor sn c x ∈ calls (Readings env s ctx extra1).2) as Hcall.
  { unfold calls. apply list_elem_of_omap. by exists (EvSensorReadings sn c x). }
  apply Readings_sensor_called_inv in Hcall
    as (_ & _ & _ & _ & _ & _ & _ & _ & _ & _ & _ & ->).
  reflexivity.
Qed.

(** C4. The outbound calls of a run are an initial part of the sequence
    current-conditions request, astronomy request, sensor reading. When the
    current-conditions fetch fails, [Readings] returns a nil mapping with
    that error and has done nothing but that fetch: no astronomy request and
    no sensor reading. When it succeeds and the astronomy fetch fails,
    [Readings] returns a nil mapping with that error after those two fetches
    and no sensor reading. *)
Theorem Readings_aborts_at_first_failure env s ctx extra :
  let current := CallHttp "GET" (getCurrentWeatherURL s) in
  let astronomy := CallHttp "GET" (astronomy_url env s) in
  calls (Readings env s ctx extra).2
    `prefix_of` ([current; astronomy]
                 ++ match temperatureSensor s with
                    | Some ts => [CallSensor ts ctx None]
                    | None => []
                    end)
  ∧ (∀ response err,
       (getCurrentWeather env s).1 = Done (response, Some err) →
       Readings env s ctx extra
       = (Done (None, Some err), (getCurrentWeather env s).2)
       ∧ calls (Readings env s ctx extra).2 `prefix_of` [current]
       ∧ (astronomy ∉ calls (Readings env s ctx extra).2)
       ∧ (∀ sn c x, CallSensor sn c x ∉ calls (Readings env s ctx extra).2))
  ∧ (∀ response astronomyResponse err,
       (getCurrentWeather env s).1 = Done (response, None) →
       (getCurrentAstronomy env s).1 = Done (astronomyResponse, Some err) →
       Readings env s ctx extra
       = (Done (None, Some err),
          (getCurrentWeather env s).2 ++ (getCurrentAstronomy env s).2)
       ∧ calls (Readings env s ctx extra).2 `prefix_of` [current; astronomy]
       ∧ (∀ sn c x, CallSensor sn c x ∉ calls (Readings env s ctx extra).2)).
Proof.
  intros current astronomy. subst current astronomy.
  split; [apply Readings_calls_prefix|].
  assert (∀ sn c x, CallSensor sn c x ∈ calls (Readings env s ctx extra).2 →
          ∃ r a, (getCurrentWeather env s).1 = Done (r, None)
                 ∧ (getCurrentAstronomy env s).1 = Done (a, None)) as Hsensor.
  { intros sn c x Hin. apply Readings_sensor_called_inv in Hin
      as (r & a & _ & _ & _ & _ & Hr & Ha & _). by exists r, a. }
  pose proof (getWeatherBodyOrCode_calls_prefix env s (getCurrentWeatherURL s)) as P1.
  pose proof (getWeatherBodyOrCode_success_calls env s (getCurrentWeatherURL s)) as S1.
  pose proof (getWeatherBodyOrCode_calls_prefix env s (astronomy_url env s)) as P2.
  fold (getCurrentWeather env s) in P1, S1.
  fold (getCurrentAstronomy env s) in P2.
  split.
  - intros response err Hw.
    assert (Readings env s ctx extra
            = (Done (None, Some err), (getCurrentWeather env s).2)) as E.
    { unfold Readings. unfold_M.
      destruct (getCurrentWeather env s) as [o1 t1]. simpl in Hw. subst o1.
      simpl. by rewrite app_nil_r. }
    split; [exact E|]. rewrite E in *. simpl. split; [exact P1|]. split.
    + intros Hin. destruct P1 as [k Hk].
      assert (CallHttp "GET" (astronomy_url env s)
              ∈ [CallHttp "GET" (getCurrentWeatherURL s)]) as Hin'.
      { rewrite Hk. apply elem_of_app. by left. }
      apply list_elem_of_singleton in Hin'. injection Hin' as Hurl.
      by apply (current_astronomy_urls_differ env s).
    + intros sn c x Hin. destruct (Hsensor sn c x Hin) as (r & a & Hr & _).
      congruence.
  - intros response astronomyResponse err Hw Ha.
    assert (Readings env s ctx extra
            = (Done (None, Some err),
               (getCurrentWeather env s).2 ++ (getCurrentAstronomy env s).2)) as E.
    { unfold Readings. unfold_M.
      destruct (getCurrentWeather env s) as [o1 t1]. simpl in Hw. subst o1.
      destruct (getCurrentAstronomy env s) as [o2 t2]. simpl in Ha. subst o2.
      simpl. by rewrite app_nil_r. }
    split; [exact E|]. split.
    + rewrite E. simpl. unfold calls in *. rewrite omap_app, (S1 _ Hw).
      by apply (prefix_app [_]).
    + intros sn c x Hin. destruct (Hsensor sn c x Hin) as (r & a & _ & Hr).
      congruence.
Qed.

Lemma Readings_aborts_at_first_failure_witness :
  Readings (world (respond 500 no_location_text) (respond 200 astronomy_text)
                  (celsius 0)) adapter background None
  = (Done (None,
           Some (errors_Errorf "error fetching weather info, code: %d, message: %s"
                   [VFloat64 1006%float; VString "No matching location found."])),
     [ EvClientDo weather_client
         (weather_request "https://api.weatherapi.com/v1/current.json?q=10001&key=k3y");
       EvLogErrorf ("Unexpected status code: %d" +:+ newline) [inl (VInt 500)];
       EvBodyClose {| StatusCode := 500;
                      Body := inl (String.list_byte_of_string no_location_text) |} ]).
Proof.
  rewrite (proj1 (proj1 (proj2 (Readings_aborts_at_first_failure
    (world (respond 500 no_location_text) (respond 200 astronomy_text) (celsius 0))
    adapter background None)) (Some no_location_json)
    (errors_Errorf "error fetching weather info, code: %d, message: %s"
       [VFloat64 1006%float; VString "No matching location found."])
    ltac:(vm_compute; reflexivity))).
  vm_compute. reflexivity.
Defined.

(** ** Shape of the decoded bodies *)

Lemma field_top (m : gomap) k : field m [k] = gindex m k.
Proof.
  unfold field, gindex, index_ok. destruct m as [g|]; simpl; [|done].
  by destruct (g !! k).
Qed.

Lemma field_below (m : gomap) k g path :
  gindex m k = VMap g →
  field m (k :: path) = default VNil (descend (VMap g) path).
Proof.
  unfold field, gindex, index_ok. destruct m as [g'|]; simpl; [|done].
  destruct (g' !! k) as [v|]; simpl; [|done]. by intros ->.
Qed.

Lemma descend_leaf (g : gmap string value) k :
  default VNil (descend (VMap g) [k]) = index g k.
Proof. unfold index. simpl. by destruct (g !! k). Qed.

Lemma descend_below (g g' : gmap string value) k path :
  index g k = VMap g' →
  default VNil (descend (VMap g) (k :: path)) = default VNil (descend (VMap g') path).
Proof.
  unfold index. simpl. destruct (g !! k) as [v|]; simpl; [|done]. by intros ->.
Qed.

Lemma is_object_inv v : is_object v = true → ∃ g, v = VMap g.
Proof. destruct v; try done. by eexists. Qed.

Lemma is_float64_inv v : is_float64 v = true → ∃ f, v = VFloat64 f.
Proof. destruct v; try done. by eexists. Qed.

(** The asserted part holds exactly when the extraction goes through. *)
Lemma containers_extracts response astronomyResponse :
  containers response astronomyResponse = true
  ↔ ∃ currentWeather condition astro cloud,
      extracts response astronomyResponse currentWeather condition astro cloud.
Proof.
  unfold containers, extracts. rewrite !andb_true_iff, !field_top. split.
  - intros ((((Hc & Hcond) & Hcloud) & Ha) & Hastro).
    apply is_object_inv in Hc as [cw Hc], Ha as [astronomy Ha].
    rewrite (field_below _ _ _ _ Hc), descend_leaf in Hcond.
    rewrite (field_below _ _ _ _ Hc), descend_leaf in Hcloud.
    rewrite (field_below _ _ _ _ Ha), descend_leaf in Hastro.
    apply is_object_inv in Hcond as [cond Hcond], Hastro as [astro Hastro].
    apply is_float64_inv in Hcloud as [cloud Hcloud].
    exists cw, cond, astro, cloud. eauto 10.
  - intros (cw & cond & astro & cloud & Hc & Hcond & Hcloud & astronomy & Ha & Hastro).
    rewrite !(field_below _ _ _ _ Hc), (field_below _ _ _ _ Ha), !descend_leaf.
    by rewrite Hc, Hcond, Hcloud, Ha, Hastro.
Qed.

(** Both fetches succeed and the extraction does not go through: the run
    panics before the sensor is read. *)
Lemma Readings_panics_without_extracts env s ctx extra response astronomyResponse :
  (getCurrentWeather env s).1 = Done (response, None) →
  (getCurrentAstronomy env s).1 = Done (astronomyResponse, None) →
  (∀ currentWeather condition astro cloud,
     ¬ extracts response astronomyResponse currentWeather condition astro cloud) →
  ∃ p, (Readings env s ctx extra).1 = Panicked p.
Proof.
  intros Hw Ha Hno. unfold Readings, temperatureSensor_Readings. unfold_M.
  destruct (getCurrentWeather env s) as [o1 t1].
  destruct (getCurrentAstronomy env s) as [o2 t2].
  simpl in Hw, Ha. subst o1 o2. simpl.
  unfold extracts in Hno.
  destruct (gindex response "current") as [| | | | | |cw] eqn:Hc; simpl; eauto.
  destruct (index cw "condition") as [| | | | | |cond] eqn:Hcond; simpl; eauto.
  destruct (index cw "cloud") as [| |cloud| | | |] eqn:Hcloud; simpl; eauto.
  destruct (gindex astronomyResponse "astronomy") as [| | | | | |astronomy] eqn:Hastronomy;
    simpl; eauto.
  destruct (index astronomy "astro") as [| | | | | |astro] eqn:Hastro; simpl; eauto.
  exfalso. eapply (Hno cw cond astro cloud). eauto 10.
Qed.

(** The sensor answers without an error and without a [float64] under
    [degrees_celsius]: the run panics. *)
Lemma Readings_panics_on_reading env s ctx extra response astronomyResponse
    currentWeather condition astro cloud ts readings :
  (getCurrentWeather env s).1 = Done (response, None) →
  (getCurrentAstronomy env s).1 = Done (astronomyResponse, None) →
  extracts response astronomyResponse currentWeather condition astro cloud →
  temperatureSensor s = Some ts →
  sensor_Readings env ts ctx None = (readings, None) →
  is_float64 (gindex readings "degrees_celsius") = false →
  ∃ p, (Readings env s ctx extra).1 = Panicked p.
Proof.
  intros Hw Ha (Hc & Hcond & Hcloud & astronomy & Hastronomy & Hastro) Hts Hrd Hdeg.
  unfold Readings, temperatureSensor_Readings. unfold_M.
  destruct (getCurrentWeather env s) as [o1 t1].
  destruct (getCurrentAstronomy env s) as [o2 t2].
  simpl in Hw, Ha. subst o1 o2.
  rewrite Hc, Hcond, Hcloud, Hastronomy, Hastro, Hts, Hrd. simpl.
  destruct (gindex readings "degrees_celsius"); simpl; eauto; discriminate.
Qed.

(** C6, as the specification words it, fails: bodies served with status 200
    that lack [temp_f], [precip_in], the [condition] leaves and [is_sun_up]
    are composed into a mapping without any fault. *)
Lemma shape_mismatch_is_not_always_fatal : ¬ shape_mismatch_is_fatal.
Proof.
  intros H.
  destruct (H bare_world adapter background None
              (Some bare_current_json) (Some bare_astronomy_json)) as [p Hp].
  - vm_compute. reflexivity.
  - vm_compute. reflexivity.
  - left. vm_compute. reflexivity.
  - vm_compute in Hp. discriminate.
Qed.

(** C6, amended. After two successful fetches [Readings] panics whenever
    [current] or [current.condition] is not an object, [current.cloud] is not
    a [float64], or [astronomy] or [astronomy.astro] is not an object. When
    these five hold and the sensor's reading succeeds, it panics whenever
    [degrees_celsius] is not a [float64]; otherwise it returns the mapping,
    in which [outside_f], [condition], [code], [precipitation_inches] and
    [is_day] are the values found at [current.temp_f],
    [current.condition.text], [current.condition.code], [current.precip_in]
    and [astronomy.astro.is_sun_up], whatever their type, nil when absent. *)
Theorem Readings_panics_on_asserted_shape env s ctx extra response astronomyResponse :
  (getCurrentWeather env s).1 = Done (response, None) →
  (getCurrentAstronomy env s).1 = Done (astronomyResponse, None) →
  (containers response astronomyResponse = false →
     ∃ p, (Readings env s ctx extra).1 = Panicked p)
  ∧ (containers response astronomyResponse = true →
     ∀ ts readings,
       temperatureSensor s = Some ts →
       sensor_Readings env ts ctx None = (readings, None) →
       (is_float64 (gindex readings "degrees_celsius") = false →
          ∃ p, (Readings env s ctx extra).1 = Panicked p)
       ∧ (is_float64 (gindex readings "degrees_celsius") = true →
          ∃ m : gmap string value,
            (Readings env s ctx extra).1 = Done (Some m, None)
            ∧ m !! "outside_f" = Some (field response ["current"; "temp_f"])
            ∧ m !! "condition" = Some (field response ["current"; "condition"; "text"])
            ∧ m !! "code" = Some (field response ["current"; "condition"; "code"])
            ∧ m !! "precipitation_inches" = Some (field response ["current"; "precip_in"])
            ∧ m !! "is_day"
              = Some (field astronomyResponse ["astronomy"; "astro"; "is_sun_up"]))).
Proof.
  intros Hw Ha. split.
  - intros Hno. apply (Readings_panics_without_extracts _ _ _ _ _ _ Hw Ha).
    intros cw cond astro cloud Hex.
    assert (containers response astronomyResponse = true) as Hyes
      by (apply containers_extracts; eauto).
    congruence.
  - intros Hyes ts readings Hts Hrd.
    apply containers_extracts in Hyes as (cw & cond & astro & cloud & Hex).
    split.
    + intros Hdeg. by eapply Readings_panics_on_reading.
    + intros Hdeg. apply is_float64_inv in Hdeg as [c Hdeg].
      exists (composite cw cond astro cloud c).
      split; [by eapply Readings_returns|].
      destruct Hex as (Hc & Hcond & Hcloud & astronomy & Hastronomy & Hastro).
      rewrite !(field_below _ _ _ _ Hc), (field_below _ _ _ _ Hastronomy).
      rewrite !(descend_below _ _ _ _ Hcond), (descend_below _ _ _ _ Hastro).
      rewrite !descend_leaf. done.
Qed.

Lemma Readings_panics_on_asserted_shape_witness :
  ∃ m : gmap string value,
    (Readings bare_world adapter background None).1 = Done (Some m, None)
    ∧ m !! "outside_f" = Some VNil
    ∧ m !! "condition" = Some VNil
    ∧ m !! "code" = Some VNil
    ∧ m !! "precipitation_inches" = Some VNil
    ∧ m !! "is_day" = Some VNil.
Proof.
  apply (proj2 (proj2 (Readings_panics_on_asserted_shape
           bare_world adapter background None
           (Some bare_current_json) (Some bare_astronomy_json)
           ltac:(vm_compute; reflexivity) ltac:(vm_compute; reflexivity))
         ltac:(vm_compute; reflexivity)
         (SensorHandle "thermo") (Some {[ "degrees_celsius" := VFloat64 0%float ]})
         eq_refl eq_refl)).
  vm_compute. reflexivity.
Defined.

(** ** Reconfiguration *)

Example Reconfigure_sample :
  Reconfigure fair_world
    {| name := "weather"; cfg := None; temperatureSensor := None;
       apiKey := ""; zipcode := 0 |}
    background (DependenciesHandle 0) (RawConfigHandle 0)
  = ({| name := "weather"; cfg := None;
        temperatureSensor := Some (SensorHandle "thermo");
        apiKey := "k3y"; zipcode := 10001 |}, None).
Proof. reflexivity. Qed.

(** C9. [Reconfigure] returns an error exactly when the configuration does
    not convert or the temperature sensor does not resolve. Whenever it
    returns an error the adapter's [apiKey] and [zipcode] are what they were
    before the call; when the conversion fails nothing at all is changed.
    When the conversion succeeds, [temperatureSensor] becomes whatever the
    dependency lookup returned, error or not, and [apiKey] and [zipcode]
    take the configuration's values only if no error is returned. *)
Theorem Reconfigure_keeps_credentials_on_error env s ctx deps conf :
  let s' := (Reconfigure env s ctx deps conf).1 in
  let err := (Reconfigure env s ctx deps conf).2 in
  (is_Some err
     ↔ (∃ e, resource_NativeConfig env conf = inr e)
       ∨ (∃ sensorConfig,
            resource_NativeConfig env conf = inl sensorConfig
            ∧ is_Some (sensor_FromDependencies env deps
                         (TemperatureSensor sensorConfig)).2))
  ∧ (is_Some err → apiKey s' = apiKey s ∧ zipcode s' = zipcode s)
  ∧ (∀ e, resource_NativeConfig env conf = inr e → s' = s ∧ err = Some e)
  ∧ (∀ sensorConfig,
       resource_NativeConfig env conf = inl sensorConfig →
       temperatureSensor s'
       = (sensor_FromDependencies env deps (TemperatureSensor sensorConfig)).1
       ∧ (err = None →
          apiKey s' = APIKey sensorConfig ∧ zipcode s' = Zipcode sensorConfig)).
Proof.
  intros s' err. subst s' err. unfold Reconfigure.
  destruct (resource_NativeConfig env conf) as [sensorConfig|e]; simpl;
    [destruct (sensor_FromDependencies env deps (TemperatureSensor sensorConfig))
       as [ts [e|]] eqn:Hdeps; simpl|];
    repeat split; intros;
    repeat match goal with
      | H : is_Some None |- _ => by destruct H
      | H : ∃ _, _ |- _ => destruct H
      | H : _ ∧ _ |- _ => destruct H
      | H : _ ∨ _ |- _ => destruct H
      end;
    simplify_eq/=; rewrite ?Hdeps; try done; try (by eexists);
    try match goal with
      | H : is_Some (sensor_FromDependencies _ _ _).2 |- _ =>
        rewrite Hdeps in H; by destruct H
      end;
    first [ left; by eexists
          | right; eexists; split; [done | rewrite Hdeps; by eexists] ].
Qed.

(** * Further properties *)

(** ** The fetch, path by path *)

(** X1. A fetch returns a nil error exactly when the request could be built,
    the client returned a response, its body was read and decoded, and the
    status is 200; the map it returns is then the decoded body. *)
Theorem getWeatherBodyOrCode_succeeds_iff env s url responseJSON :
  (getWeatherBodyOrCode env s url).1 = Done (responseJSON, None)
  ↔ http_NewRequest_error env "GET" url = None
    ∧ ∃ resp body,
        client_Do env weather_client (weather_request url) = inl resp
        ∧ Body resp = inl body
        ∧ json_Unmarshal env body = inl responseJSON
        ∧ StatusCode resp = http_StatusOK.
Proof.
  unfold getWeatherBodyOrCode, http_NewRequest, io_ReadAll.
  destruct (http_NewRequest_error env "GET" url) as [e|] eqn:Hreq.
  { unfold_M. simpl. split; [done | by intros [? _]]. }
  change (Header_Add _ _ _) with (weather_request url). fold weather_client.
  unfold_M. split.
  - intros H. run. split; [done|]. eexists _, _. repeat split; eauto.
    by apply dec_stable.
  - intros (_ & resp & body & Hdo & Hbody & Hjson & Hst).
    rewrite Hdo, Hbody, Hjson. by rewrite decide_False by (by intros []).
Qed.

(** X2. A fetch hands back a map next to an error only for the API's own
    error report: the map then has both a [code] and a [message] key, the
    status is not 200, and the error carries exactly those two values. On
    every other failure the map is nil. *)
Theorem getWeatherBodyOrCode_body_with_error env s url m err :
  (getWeatherBodyOrCode env s url).1 = Done (Some m, Some err) →
  ∃ resp body code message,
    client_Do env weather_client (weather_request url) = inl resp
    ∧ Body resp = inl body
    ∧ json_Unmarshal env body = inl (Some m)
    ∧ StatusCode resp ≠ http_StatusOK
    ∧ m !! "code" = Some code
    ∧ m !! "message" = Some message
    ∧ err = errors_Errorf "error fetching weather info, code: %d, message: %s"
                          [code; message].
Proof.
  unfold getWeatherBodyOrCode, http_NewRequest, io_ReadAll.
  destruct (http_NewRequest_error env "GET" url) as [e|] eqn:Hreq.
  { unfold_M. simpl. done. }
  change (Header_Add _ _ _) with (weather_request url). fold weather_client.
  unfold_M. intros H. run. eexists _, _, _, _. repeat split; eauto.
Qed.

Lemma getWeatherBodyOrCode_body_with_error_witness :
  ∃ code message,
    no_location_json !! "code" = Some code
    ∧ no_location_json !! "message" = Some message
    ∧ errors_Errorf "error fetching weather info, code: %d, message: %s"
        [VFloat64 1006%float; VString "No matching location found."]
      = errors_Errorf "error fetching weather info, code: %d, message: %s"
          [code; message].
Proof.
  destruct (getWeatherBodyOrCode_body_with_error
              (world (respond 500 no_location_text) (respond 200 astronomy_text)
                     (celsius 0))
              adapter (getCurrentWeatherURL adapter) no_location_json
              (errors_Errorf "error fetching weather info, code: %d, message: %s"
                 [VFloat64 1006%float; VString "No matching location found."])
              ltac:(vm_compute; reflexivity))
    as (resp & body & code & message & _ & _ & _ & _ & Hc & Hm & He).
  by exists code, message.
Defined.

Lemma getWeatherBodyOrCode_logged_length env s url :
  ∃ r, (getWeatherBodyOrCode env s url).1 = Done r
       ∧ length (logged (getWeatherBodyOrCode env s url).2)
         = match r.2 with Some _ => 1%nat | None => 0%nat end.
Proof.
  unfold getWeatherBodyOrCode, http_NewRequest. unfold_M.
  run; eexists; (split; [reflexivity|]); unfold logged; rewrite ?omap_app;
    reflexivity.
Qed.

(** X3. A fetch never panics, and it logs exactly one error line when it
    returns an error and nothing when it succeeds. *)
Theorem getWeatherBodyOrCode_logs_once_on_error env s url :
  ∃ r, (getWeatherBodyOrCode env s url).1 = Done r
       ∧ length (logged (getWeatherBodyOrCode env s url).2)
         = match r.2 with Some _ => 1%nat | None => 0%nat end.
Proof. apply getWeatherBodyOrCode_logged_length. Qed.

(** X4. A fetch closes the response body exactly once when the client
    returned a response, as the last thing it does, on every path; when no
    response arrived nothing is closed. *)
Theorem getWeatherBodyOrCode_closes_body env s url :
  match http_NewRequest_error env "GET" url,
        client_Do env weather_client (weather_request url) with
  | None, inl resp =>
    closed (getWeatherBodyOrCode env s url).2 = [resp]
    ∧ last (getWeatherBodyOrCode env s url).2 = Some (EvBodyClose resp)
  | _, _ => closed (getWeatherBodyOrCode env s url).2 = []
  end.
Proof.
  unfold getWeatherBodyOrCode, http_NewRequest.
  destruct (http_NewRequest_error env "GET" url) as [e|] eqn:Hreq; [done|].
  change (Header_Add _ _ _) with (weather_request url). fold weather_client.
  unfold_M.
  destruct (client_Do env weather_client (weather_request url)) as [resp|e];
    [|done].
  run; unfold closed; rewrite ?omap_app; simpl; split; try done;
    by rewrite ?app_comm_cons, last_snoc.
Qed.

(** X5. A fetch sends at most one request: none when the request cannot be
    built, otherwise exactly one [GET] of the given URL whose only header is
    [Accept: application/json], through a client with a ten second
    timeout. *)
Theorem getWeatherBodyOrCode_request env s url :
  requests (getWeatherBodyOrCode env s url).2
  = match http_NewRequest_error env "GET" url with
    | Some _ => []
    | None =>
      [({| Timeout := 10000000000 |},
        {| Method := "GET"; URL := url;
           Header := [("Accept", "application/json")] |})]
    end.
Proof.
  unfold getWeatherBodyOrCode, http_NewRequest. unfold_M.
  destruct (http_NewRequest_error env "GET" url); [reflexivity|].
  run; unfold requests; rewrite ?omap_app; reflexivity.
Qed.

(** ** The composite reading, run by run *)

Lemma getWeatherBodyOrCode_success_trace env s url r :
  (getWeatherBodyOrCode env s url).1 = Done (r, None) →
  ∃ resp,
    client_Do env weather_client (weather_request url) = inl resp
    ∧ (getWeatherBodyOrCode env s url).2
      = [EvClientDo weather_client (weather_request url); EvBodyClose resp].
Proof.
  unfold getWeatherBodyOrCode, http_NewRequest.
  destruct (http_NewRequest_error env "GET" url) as [e|] eqn:Hreq; [done|].
  change (Header_Add _ _ _) with (weather_request url). fold weather_client.
  unfold_M. intros H. run. by eexists.
Qed.

(** X6. [Readings] returns either a mapping or an error, never both and
    never neither: the body that a failed fetch hands back is dropped. *)
Theorem Readings_mapping_xor_error env s ctx extra out err :
  (Readings env s ctx extra).1 = Done (out, err) →
  (is_Some out ∧ err = None) ∨ (out = None ∧ is_Some err).
Proof.
  unfold Readings, temperatureSensor_Readings. unfold_M.
  intros H. run; first [left; split; [by eexists | done]
                       | right; split; [done | by eexists]].
Qed.

Lemma Readings_mapping_xor_error_witness :
  (is_Some (None : gomap)
   ∧ Some (errors_Wrapf (LibError "sensor offline")
             "error getting reading from temp sensor" []) = None)
  ∨ ((None : gomap) = None
     ∧ is_Some (Some (errors_Wrapf (LibError "sensor offline")
                        "error getting reading from temp sensor" []))).
Proof.
  apply (Readings_mapping_xor_error
           (world (respond 200 current_text) (respond 200 astronomy_text)
                  (Some ∅, Some (LibError "sensor offline")))
           adapter background None).
  vm_compute. reflexivity.
Defined.

(** X7. Every error [Readings] returns has one of three origins: it is the
    error of the current-conditions fetch, or the error of the astronomy
    fetch after a successful current-conditions fetch, or the configured
    sensor's error wrapped with the context
    [error getting reading from temp sensor]. *)
Theorem Readings_error_origin env s ctx extra out err :
  (Readings env s ctx extra).1 = Done (out, Some err) →
  (∃ response, (getCurrentWeather env s).1 = Done (response, Some err))
  ∨ (∃ response astronomyResponse,
       (getCurrentWeather env s).1 = Done (response, None)
       ∧ (getCurrentAstronomy env s).1 = Done (astronomyResponse, Some err))
  ∨ (∃ ts readings cause,
       temperatureSensor s = Some ts
       ∧ sensor_Readings env ts ctx None = (readings, Some cause)
       ∧ err = errors_Wrapf cause "error getting reading from temp sensor" []).
Proof.
  unfold Readings, temperatureSensor_Readings. unfold_M.
  intros H. run.
  - left. by eexists.
  - right. left. by eexists _, _.
  - right. right. by eexists _, _, _.
Qed.

Lemma Readings_error_origin_witness :
  (∃ response,
     (getCurrentWeather
        (world (respond 200 current_text) (inr (LibError "timeout")) (celsius 0))
        adapter).1 = Done (response, Some (LibError "timeout")))
  ∨ (∃ response astronomyResponse,
       (getCurrentWeather
          (world (respond 200 current_text) (inr (LibError "timeout")) (celsius 0))
          adapter).1 = Done (response, None)
       ∧ (getCurrentAstronomy
            (world (respond 200 current_text) (inr (LibError "timeout")) (celsius 0))
            adapter).1 = Done (astronomyResponse, Some (LibError "timeout")))
  ∨ (∃ ts readings cause,
       temperatureSensor adapter = Some ts
       ∧ sensor_Readings
           (world (respond 200 current_text) (inr (LibError "timeout")) (celsius 0))
           ts background None = (readings, Some cause)
       ∧ LibError "timeout"
         = errors_Wrapf cause "error getting reading from temp sensor" []).
Proof.
  apply (Readings_error_origin
           (world (respond 200 current_text) (inr (LibError "timeout")) (celsius 0))
           adapter background None None).
  vm_compute. reflexivity.
Defined.

(** X8. A run of [Readings] that returns a mapping did exactly this, in this
    order, and logged nothing: the current-conditions request, closing its
    body, the astronomy request, closing its body, one reading of the
    configured sensor with the caller's context and a nil [extra]. *)
Theorem Readings_success_trace env s ctx extra out :
  (Readings env s ctx extra).1 = Done (out, None) →
  ∃ current astronomy ts,
    client_Do env weather_client (weather_request (getCurrentWeatherURL s))
    = inl current
    ∧ client_Do env weather_client (weather_request (astronomy_url env s))
      = inl astronomy
    ∧ temperatureSensor s = Some ts
    ∧ (Readings env s ctx extra).2
      = [ EvClientDo weather_client (weather_request (getCurrentWeatherURL s));
          EvBodyClose current;
          EvClientDo weather_client (weather_request (astronomy_url env s));
          EvBodyClose astronomy;
          EvSensorReadings ts ctx None ].
Proof.
  pose proof (getWeatherBodyOrCode_success_trace env s (getCurrentWeatherURL s)) as T1.
  pose proof (getWeatherBodyOrCode_success_trace env s (astronomy_url env s)) as T2.
  fold (getCurrentWeather env s) in T1. fold (getCurrentAstronomy env s) in T2.
  unfold Readings, temperatureSensor_Readings. unfold_M.
  destruct (getCurrentWeather env s) as [[[response [e|]]|p] t1]; simpl in *;
    try done.
  destruct (T1 _ eq_refl) as (current & Hcur & ->).
  destruct (getCurrentAstronomy env s) as [[[astronomyResponse [e|]]|p] t2];
    simpl in *; try done.
  destruct (T2 _ eq_refl) as (astronomy & Hast & ->).
  intros H. run. by eexists _, _, _.
Qed.

Lemma Readings_success_trace_witness :
  ∃ current astronomy ts,
    client_Do fair_world weather_client (weather_request (getCurrentWeatherURL adapter))
    = inl current
    ∧ client_Do fair_world weather_client
        (weather_request (astronomy_url fair_world adapter))
      = inl astronomy
    ∧ temperatureSensor adapter = Some ts
    ∧ (Readings fair_world adapter background None).2
      = [ EvClientDo weather_client (weather_request (getCurrentWeatherURL adapter));
          EvBodyClose current;
          EvClientDo weather_client
            (weather_request (astronomy_url fair_world adapter));
          EvBodyClose astronomy;
          EvSensorReadings ts background None ].
Proof.
  apply (Readings_success_trace fair_world adapter background None _ eq_refl).
Defined.

(** Without a sensor no run returns a mapping or reads a sensor. *)
Lemma Readings_without_sensor env s ctx extra :
  temperatureSensor s = None →
  (∀ out, (Readings env s ctx extra).1 ≠ Done (out, None))
  ∧ sensor_reads (Readings env s ctx extra).2 = []
  ∧ (∀ response astronomyResponse,
       (getCurrentWeather env s).1 = Done (response, None) →
       (getCurrentAstronomy env s).1 = Done (astronomyResponse, None) →
       containers response astronomyResponse = true →
       (Readings env s ctx extra).1 = Panicked PanicNilDereference).
Proof.
  intros Hnil. split; [|split].
  - intros out H. apply Readings_returns_inv in H
      as (_ & _ & _ & _ & _ & _ & _ & ts & _ & _ & _ & _ & _ & _ & _ & _ & _ & Hts & _).
    congruence.
  - destruct (sensor_reads (Readings env s ctx extra).2) as [|[[sn c] x] l] eqn:E;
      [done|].
    assert (CallSensor sn c x ∈ calls (Readings env s ctx extra).2) as Hcall.
    { assert ((sn, c, x) ∈ sensor_reads (Readings env s ctx extra).2) as Hin
        by (rewrite E; left).
      unfold sensor_reads in Hin. apply list_elem_of_omap in Hin as (e & He & Hm).
      unfold calls. apply list_elem_of_omap. exists e. split; [done|].
      destruct e; simplify_eq. done. }
    apply Readings_sensor_called_inv in Hcall
      as (_ & _ & _ & _ & _ & _ & _ & _ & _ & Hts & _).
    congruence.
  - intros response astronomyResponse Hw Ha Hyes.
    apply containers_extracts in Hyes
      as (cw & cond & astro & cloud & Hc & Hcond & Hcloud & astronomy & Hastronomy & Hastro).
    unfold Readings, temperatureSensor_Readings. unfold_M.
    destruct (getCurrentWeather env s) as [o1 t1].
    destruct (getCurrentAstronomy env s) as [o2 t2].
    simpl in Hw, Ha. subst o1 o2.
    by rewrite Hc, Hcond, Hcloud, Hastronomy, Hastro, Hnil.
Qed.

(** X9. An adapter whose sensor is nil never produces a reading: no run
    returns a mapping and no sensor is read; once both fetches have succeeded
    and the bodies pass the extraction, the run panics on the nil
    interface. *)
Theorem Readings_nil_sensor env s ctx extra :
  temperatureSensor s = None →
  (∀ out, (Readings env s ctx extra).1 ≠ Done (out, None))
  ∧ sensor_reads (Readings env s ctx extra).2 = []
  ∧ (∀ response astronomyResponse,
       (getCurrentWeather env s).1 = Done (response, None) →
       (getCurrentAstronomy env s).1 = Done (astronomyResponse, None) →
       containers response astronomyResponse = true →
       (Readings env s ctx extra).1 = Panicked PanicNilDereference).
Proof. apply Readings_without_sensor. Qed.

Lemma Readings_nil_sensor_witness :
  (Readings fair_world (set_temperatureSensor None adapter) background None).1
  = Panicked PanicNilDereference.
Proof.
  apply (proj2 (proj2 (Readings_nil_sensor fair_world
                         (set_temperatureSensor None adapter) background None
                         eq_refl))
           (Some current_json) (Some astronomy_json));
    vm_compute; reflexivity.
Defined.

(** X10. Whatever happens, a run of [Readings] reads a sensor at most once,
    and then it is the configured sensor, with the caller's context and a nil
    [extra]. *)
Theorem Readings_reads_configured_sensor_once env s ctx extra :
  sensor_reads (Readings env s ctx extra).2 = []
  ∨ ∃ ts, temperatureSensor s = Some ts
          ∧ sensor_reads (Readings env s ctx extra).2 = [(ts, ctx, None)].
Proof.
  assert (∀ url, sensor_reads (getWeatherBodyOrCode env s url).2 = []) as N.
  { intros url. unfold getWeatherBodyOrCode, http_NewRequest. unfold_M.
    run; unfold sensor_reads; rewrite ?omap_app; reflexivity. }
  pose proof (N (getCurrentWeatherURL s)) as N1.
  pose proof (N (astronomy_url env s)) as N2. clear N.
  fold (getCurrentWeather env s) in N1. fold (getCurrentAstronomy env s) in N2.
  unfold Readings, temperatureSensor_Readings. unfold_M.
  destruct (getCurrentWeather env s) as [o1 t1].
  destruct (getCurrentAstronomy env s) as [o2 t2]. simpl in N1, N2.
  run; unfold sensor_reads in *; rewrite ?omap_app, ?N1, ?N2; simpl;
    first [by left | right; by eexists].
Qed.

(** ** Construction and reconfiguration *)

Example construct_sample :
  newWeathersensorWeathersensor host_world host_ResourceName background
    (DependenciesHandle 0) (RawConfigHandle 0)
  = (Some adapter, None).
Proof. reflexivity. Qed.

Example construct_unresolved :
  newWeathersensorWeathersensor host_world host_ResourceName background
    (DependenciesHandle 0) (RawConfigHandle 2)
  = (None, Some (errors_Wrapf (LibError "resource not found")
                   "unable to get temperature sensor %v for weather sensor"
                   [VString "attic"])).
Proof. reflexivity. Qed.

(** X11. The constructor returns an adapter or an error, never both and
    never neither; it fails exactly when the configuration does not convert
    or the sensor does not resolve. The adapter it returns is named after the
    resource, keeps the converted configuration in [cfg], and has that
    configuration's [apiKey] and [zipcode] and the resolved sensor. *)
Theorem newWeathersensorWeathersensor_result env ResourceName ctx deps rawConf :
  let r := newWeathersensorWeathersensor env ResourceName ctx deps rawConf in
  (r.1 = None ↔ is_Some r.2)
  ∧ (is_Some r.2
     ↔ (∃ e, resource_NativeConfig env rawConf = inr e)
       ∨ (∃ conf,
            resource_NativeConfig env rawConf = inl conf
            ∧ is_Some (sensor_FromDependencies env deps (TemperatureSensor conf)).2))
  ∧ (∀ s, r.1 = Some s →
       ∃ conf,
         resource_NativeConfig env rawConf = inl conf
         ∧ Name s = ResourceName rawConf
         ∧ cfg s = Some conf
         ∧ apiKey s = APIKey conf
         ∧ zipcode s = Zipcode conf
         ∧ sensor_FromDependencies env deps (TemperatureSensor conf)
           = (temperatureSensor s, None)).
Proof.
  intros r. subst r. unfold newWeathersensorWeathersensor, Reconfigure, Name.
  destruct (resource_NativeConfig env rawConf) as [conf|e]; simpl;
    [destruct (sensor_FromDependencies env deps (TemperatureSensor conf))
       as [ts [e|]] eqn:Hdeps; simpl|];
    repeat split; intros;
    repeat match goal with
      | H : is_Some None |- _ => by destruct H
      | H : ∃ _, _ |- _ => destruct H
      | H : _ ∧ _ |- _ => destruct H
      | H : _ ∨ _ |- _ => destruct H
      end;
    simplify_eq/=; rewrite ?Hdeps; try done; try (by eexists);
    try match goal with
      | H : is_Some (sensor_FromDependencies _ _ _).2 |- _ =>
        rewrite Hdeps in H; by destruct H
      end;
    first [ left; by eexists
          | right; eexists; split; [done | rewrite Hdeps; by eexists]
          | eexists; by rewrite ?Hdeps ].
Qed.

(** X12. Applying the same reconfiguration a second time changes nothing:
    the adapter and the error are those of the first application. *)
Theorem Reconfigure_idempotent env s ctx ctx' deps conf :
  Reconfigure env (Reconfigure env s ctx deps conf).1 ctx' deps conf
  = Reconfigure env s ctx deps conf.
Proof.
  unfold Reconfigure.
  destruct (resource_NativeConfig env conf) as [c|e]; simpl; [|done].
  by destruct (sensor_FromDependencies env deps (TemperatureSensor c))
    as [ts [e|]].
Qed.

(** X13. [Reconfigure] never writes [cfg] or the name. For any adapter and
    whatever a call returns, [cfg] and the name after it are those before
    it, and so they are after any sequence of reconfigurations; after a
    successful [Reconfigure] the [apiKey] and [zipcode] in effect are those
    of the new configuration, so that [cfg] can disagree with them. *)
Theorem Reconfigure_never_writes_cfg env s ctx deps conf steps :
  (cfg (Reconfigure env s ctx deps conf).1 = cfg s
   ∧ Name (Reconfigure env s ctx deps conf).1 = Name s)
  ∧ (cfg (reconfigure_all env s steps) = cfg s
     ∧ Name (reconfigure_all env s steps) = Name s)
  ∧ (∀ new, resource_NativeConfig env conf = inl new →
       (Reconfigure env s ctx deps conf).2 = None →
       apiKey (Reconfigure env s ctx deps conf).1 = APIKey new
       ∧ zipcode (Reconfigure env s ctx deps conf).1 = Zipcode new).
Proof.
  assert (∀ s ctx deps conf,
            cfg (Reconfigure env s ctx deps conf).1 = cfg s
            ∧ Name (Reconfigure env s ctx deps conf).1 = Name s) as Hstep.
  { clear. intros s ctx deps conf. unfold Reconfigure, Name.
    destruct (resource_NativeConfig env conf) as [new|e]; [|done].
    by destruct (sensor_FromDependencies env deps (TemperatureSensor new))
      as [ts [e|]]. }
  split; [apply Hstep|]. split.
  - clear ctx deps conf. revert s.
    induction steps as [|[[ctx deps] conf] steps IH]; intros s; [done|].
    unfold reconfigure_all in *. simpl.
    destruct (IH (Reconfigure env s ctx deps conf).1) as [-> ->].
    apply Hstep.
  - intros new Hconf. unfold Reconfigure. rewrite Hconf.
    by destruct (sensor_FromDependencies env deps (TemperatureSensor new))
      as [ts [e|]].
Qed.

Lemma Reconfigure_never_writes_cfg_witness :
  let s1 := (Reconfigure host_world adapter background (DependenciesHandle 0)
               (RawConfigHandle 1)).1 in
  let s2 := reconfigure_all host_world adapter
              [ (background, DependenciesHandle 0, RawConfigHandle 1);
                (background, DependenciesHandle 0, RawConfigHandle 2);
                (background, DependenciesHandle 0, RawConfigHandle 1) ] in
  cfg s1 = Some sample_config ∧ apiKey s1 = "0th3r" ∧ zipcode s1 = 94103
  ∧ cfg s2 = Some sample_config ∧ apiKey s2 = "0th3r".
Proof.
  destruct (Reconfigure_never_writes_cfg host_world adapter background
              (DependenciesHandle 0) (RawConfigHandle 1)
              [ (background, DependenciesHandle 0, RawConfigHandle 1);
                (background, DependenciesHandle 0, RawConfigHandle 2);
                (background, DependenciesHandle 0, RawConfigHandle 1) ])
    as ((Hcfg & _) & (Hall & _) & Hnew).
  destruct (Hnew elsewhere_config eq_refl eq_refl) as [Hkey Hzip].
  cbv zeta. split; [exact Hcfg|]. split; [exact Hkey|]. split; [exact Hzip|].
  split; [exact Hall | reflexivity].
Defined.

(** ** Reconfiguration, then a reading *)

Lemma Reconfigure_success_fields env s ctx deps conf new s' :
  resource_NativeConfig env conf = inl new →
  Reconfigure env s ctx deps conf = (s', None) →
  apiKey s' = APIKey new ∧ zipcode s' = Zipcode new
  ∧ temperatureSensor s'
    = (sensor_FromDependencies env deps (TemperatureSensor new)).1.
Proof.
  unfold Reconfigure. intros ->.
  destruct (sensor_FromDependencies env deps (TemperatureSensor new))
    as [ts [e|]]; simpl; [done|].
  by intros [= <-].
Qed.

(** X14. After a successful [Reconfigure], a reading asks the weather API
    about the new configuration's zipcode with its key, and reads the sensor
    that the new configuration's name resolved to: the outbound calls are an
    initial part of those two requests and that one reading. *)
Theorem Readings_after_Reconfigure env s ctx deps conf new s' ctx' extra :
  resource_NativeConfig env conf = inl new →
  Reconfigure env s ctx deps conf = (s', None) →
  calls (Readings env s' ctx' extra).2
  `prefix_of`
  ([ CallHttp "GET" (currentWeatherURL +:+ "?q=" +:+ pretty (Zipcode new)
                       +:+ "&key=" +:+ APIKey new);
     CallHttp "GET" (astronomyURL +:+ "?q=" +:+ pretty (Zipcode new)
                       +:+ "&dt=" +:+ time_Now_Format env "2006-01-02"
                       +:+ "&key=" +:+ APIKey new) ]
   ++ match (sensor_FromDependencies env deps (TemperatureSensor new)).1 with
      | Some ts => [CallSensor ts ctx' None]
      | None => []
      end).
Proof.
  intros Hconf Hre.
  destruct (Reconfigure_success_fields _ _ _ _ _ _ _ Hconf Hre) as (Hkey & Hzip & Hts).
  pose proof (Readings_calls_prefix env s' ctx' extra) as P.
  unfold getCurrentWeatherURL, astronomy_url in P.
  by rewrite Hkey, Hzip, Hts in P.
Qed.

Lemma Readings_after_Reconfigure_witness :
  calls (Readings host_world
           (Reconfigure host_world adapter background (DependenciesHandle 0)
              (RawConfigHandle 1)).1
           background None).2
  `prefix_of`
  [ CallHttp "GET" "https://api.weatherapi.com/v1/current.json?q=94103&key=0th3r";
    CallHttp "GET"
      "https://api.weatherapi.com/v1/astronomy.json?q=94103&dt=2024-05-17&key=0th3r";
    CallSensor (SensorHandle "thermo") background None ].
Proof.
  apply (Readings_after_Reconfigure host_world adapter background
           (DependenciesHandle 0) (RawConfigHandle 1) elsewhere_config
           _ background None eq_refl eq_refl).
Defined.

(** X15. A [Reconfigure] that fails because the sensor does not resolve, the
    lookup returning a nil sensor, leaves an adapter that no longer produces
    readings: the sensor it had is gone, no run returns a mapping, and the
    requests it still sends are those of the credentials it had before. *)
Theorem Readings_after_failed_resolution env s ctx deps conf new cause ctx' extra :
  resource_NativeConfig env conf = inl new →
  sensor_FromDependencies env deps (TemperatureSensor new) = (None, Some cause) →
  let s' := (Reconfigure env s ctx deps conf).1 in
  temperatureSensor s' = None
  ∧ (∀ out, (Readings env s' ctx' extra).1 ≠ Done (out, None))
  ∧ calls (Readings env s' ctx' extra).2
    `prefix_of` [ CallHttp "GET" (getCurrentWeatherURL s);
                  CallHttp "GET" (astronomy_url env s) ].
Proof.
  intros Hconf Hdeps s'. subst s'. unfold Reconfigure. rewrite Hconf, Hdeps. simpl.
  split; [done|]. split.
  - apply (Readings_without_sensor env (set_temperatureSensor None s) ctx' extra eq_refl).
  - apply (Readings_calls_prefix env (set_temperatureSensor None s) ctx' extra).
Qed.

Lemma Readings_after_failed_resolution_witness :
  let s' := (Reconfigure host_world adapter background (DependenciesHandle 0)
               (RawConfigHandle 2)).1 in
  temperatureSensor s' = None
  ∧ (∀ out, (Readings host_world s' background None).1 ≠ Done (out, None))
  ∧ calls (Readings host_world s' background None).2
    `prefix_of` [ CallHttp "GET" (getCurrentWeatherURL adapter);
                  CallHttp "GET" (astronomy_url host_world adapter) ].
Proof.
  apply (Readings_after_failed_resolution host_world adapter background
           (DependenciesHandle 0) (RawConfigHandle 2) attic_config
           (LibError "resource not found") background None eq_refl eq_refl).
Defined.

(** X16. The dependency that [Validate] declares for a configuration is the
    one [Reconfigure] looks up for it: when [Validate] accepts the converted
    configuration, it names exactly one required dependency, a non-empty
    name, and [Reconfigure] stores what the lookup of that name returns. *)
Theorem Validate_declares_the_resolved_sensor env s ctx deps conf new path
    required optional :
  resource_NativeConfig env conf = inl new →
  Validate new path = (required, optional, None) →
  ∃ nm, required = [nm] ∧ optional = [] ∧ nm ≠ ""
        ∧ temperatureSensor (Reconfigure env s ctx deps conf).1
          = (sensor_FromDependencies env deps nm).1.
Proof.
  intros Hconf Hval. exists (TemperatureSensor new).
  unfold Validate in Hval. repeat case_decide; simplify_eq.
  repeat split; try done.
  unfold Reconfigure. rewrite Hconf.
  by destruct (sensor_FromDependencies env deps (TemperatureSensor new))
    as [ts [e|]].
Qed.

Lemma Validate_declares_the_resolved_sensor_witness :
  ∃ nm, ["thermo"] = [nm] ∧ ([] : list string) = [] ∧ nm ≠ ""
        ∧ temperatureSensor
            (Reconfigure host_world adapter background (DependenciesHandle 0)
               (RawConfigHandle 1)).1
          = (sensor_FromDependencies host_world (DependenciesHandle 0) nm).1.
Proof.
  apply (Validate_declares_the_resolved_sensor host_world adapter background
           (DependenciesHandle 0) (RawConfigHandle 1) elsewhere_config
           "components.0" ["thermo"] [] eq_refl eq_refl).
Defined.

(** ** The request URLs *)

(** Two strings that are cut at their first occurrence of a character agree
    on both sides of the cut. *)
Lemma split_at_first c (p1 p2 x y : string) :
  free_of c p1 = true → free_of c p2 = true →
  p1 +:+ String c x = p2 +:+ String c y → p1 = p2 ∧ x = y.
Proof.
  revert p2. induction p1 as [|a p1 IH]; intros [|b p2]; simpl.
  - by intros _ _ [= ->].
  - intros _ [Hb _]%andb_true_iff [= <- _].
    by rewrite Ascii.eqb_refl in Hb.
  - intros [Ha _]%andb_true_iff _ [= -> _].
    by rewrite Ascii.eqb_refl in Ha.
  - intros [_ H1]%andb_true_iff [_ H2]%andb_true_iff [= -> H].
    destruct (IH _ H1 H2 H) as [-> ->]. done.
Qed.

Lemma pretty_N_go_free_of_amp x s :
  free_of "&" s = true → free_of "&" (pretty_N_go x s) = true.
Proof.
  revert s. induction (N.lt_wf_0 x) as [x _ IH]; intros s Hs.
  assert (x = 0 ∨ 0 < x)%N as [->|?] by lia.
  - by rewrite pretty_N_go_0.
  - rewrite pretty_N_go_step by done. apply IH.
    { by apply N.div_lt. }
    simpl. rewrite Hs. unfold pretty_N_char. by repeat case_match.
Qed.

(** The decimal rendering of an integer has no ampersand. *)
Lemma pretty_Z_free_of_amp (z : Z) : free_of "&" (pretty z) = true.
Proof.
  assert (∀ n : N, free_of "&" (pretty n) = true) as HN.
  { intros n. unfold pretty, pretty_N. case_decide; [done|].
    by apply pretty_N_go_free_of_amp. }
  destruct z as [|p|p]; [done|apply (HN (Npos p))|].
  change (pretty (Z.neg p)) with ("-" +:+ pretty (Npos p)). simpl.
  apply (HN (Npos p)).
Qed.

(** X17. The request URLs determine the configuration in effect: two
    adapters whose current-conditions URLs are equal have the same zipcode
    and the same key, and so have two adapters whose astronomy URLs, built on
    the same day, are equal. *)
Theorem request_urls_injective env s1 s2 :
  (getCurrentWeatherURL s1 = getCurrentWeatherURL s2 →
     zipcode s1 = zipcode s2 ∧ apiKey s1 = apiKey s2)
  ∧ (astronomy_url env s1 = astronomy_url env s2 →
     zipcode s1 = zipcode s2 ∧ apiKey s1 = apiKey s2).
Proof.
  unfold getCurrentWeatherURL, astronomy_url. split; intros H.
  - apply (inj (String.app _)), (inj (String.app _)) in H.
    apply (split_at_first "&") in H as [Hz Hk];
      [|apply pretty_Z_free_of_amp..].
    split; [by apply (inj pretty)|].
    by apply (inj (String.app "key=")) in Hk.
  - apply (inj (String.app _)), (inj (String.app _)) in H.
    apply (split_at_first "&") in H as [Hz Hk];
      [|apply pretty_Z_free_of_amp..].
    split; [by apply (inj pretty)|].
    apply (inj (String.app "dt=")), (inj (String.app _)) in Hk.
    by apply (inj (String.app "&key=")) in Hk.
Qed.

(** ** What a reading logs *)

(** X18. A run of [Readings] logs exactly when one of its two fetches fails,
    and then one line: after two successful fetches nothing is logged,
    whether the run then returns the mapping, returns the sensor's error or
    panics. *)
Theorem Readings_logs_fetch_failures_only env s ctx extra :
  match (getCurrentWeather env s).1, (getCurrentAstronomy env s).1 with
  | Done (_, None), Done (_, None) => logged (Readings env s ctx extra).2 = []
  | _, _ => length (logged (Readings env s ctx extra).2) = 1%nat
  end.
Proof.
  pose proof (getWeatherBodyOrCode_logged_length env s (getCurrentWeatherURL s))
    as (r1 & Hr1 & L1).
  pose proof (getWeatherBodyOrCode_logged_length env s (astronomy_url env s))
    as (r2 & Hr2 & L2).
  fold (getCurrentWeather env s) in Hr1, L1.
  fold (getCurrentAstronomy env s) in Hr2, L2.
  unfold Readings, temperatureSensor_Readings. unfold_M.
  destruct (getCurrentWeather env s) as [o1 t1].
  destruct (getCurrentAstronomy env s) as [o2 t2].
  simpl in *. subst o1 o2.
  destruct r1 as [response [e1|]], r2 as [astronomyResponse [e2|]]; simpl in *;
    unfold logged in *; rewrite ?omap_app, ?length_app, ?L1, ?L2; simpl; try done.
  - apply nil_length_inv in L1, L2.
    run; rewrite ?omap_app, ?L1, ?L2; reflexivity.
Qed.
